(** * A shallow embedding of the IVRInput wrapper of OpenVR-AdvancedSettings

    Sources: [src/src/ivrinput/ivrinput.cpp] (the "playspace" version, module
    [IvrInput]) and [src/unnamed/part_001] (the "room" version, module
    [IvrInputRoom]).

    The wrapper talks to the SteamVR runtime through [vr::VRInput()].  The
    runtime is external: it is modelled as an interface record [IVRInput]
    whose methods take and return the runtime's own (opaque) state.  The
    program's effects are explicit state passing over an environment [Env]
    holding that runtime state, the easylogging++ log and a trace of the
    runtime calls made; a thrown [std::runtime_error] is the [Exc] outcome. *)

From Stdlib Require Import String List ZArith Bool Lia.
Import ListNotations.
Open Scope string_scope.
Open Scope Z_scope.

(** ** OpenVR data types (openvr.h) *)

(** [VRActionHandle_t], [VRActionSetHandle_t], [VRInputValueHandle_t] are all
    [uint64_t]. *)
Definition VRActionHandle_t := Z.
Definition VRActionSetHandle_t := Z.
Definition VRInputValueHandle_t := Z.

(** [static const VRInputValueHandle_t k_ulInvalidInputValueHandle = 0;] *)
Definition k_ulInvalidInputValueHandle : VRInputValueHandle_t := 0.

(** [EVRInputError] is an enum; its numeric value is what gets logged. *)
Definition EVRInputError := Z.
Definition VRInputError_None : EVRInputError := 0.

(** A C++ [float] is kept as its IEEE-754 bit pattern: the wrapper only copies
    it, and a zero-initialised float is the pattern 0. *)
Definition float_bits := Z.

Record InputDigitalActionData_t := mkDigital {
  d_bActive : bool;
  d_activeOrigin : VRInputValueHandle_t;
  d_bState : bool;
  d_bChanged : bool;
  d_fUpdateTime : float_bits
}.

Record InputAnalogActionData_t := mkAnalog {
  an_bActive : bool;
  an_activeOrigin : VRInputValueHandle_t;
  an_x : float_bits; an_y : float_bits; an_z : float_bits;
  an_deltaX : float_bits; an_deltaY : float_bits; an_deltaZ : float_bits;
  an_fUpdateTime : float_bits
}.

(** [vr::InputDigitalActionData_t handleData = {};] *)
Definition zero_digital : InputDigitalActionData_t :=
  mkDigital false 0 false false 0.

(** [vr::InputAnalogActionData_t handleData = {};] *)
Definition zero_analog : InputAnalogActionData_t :=
  mkAnalog false 0 0 0 0 0 0 0 0.

Record VRActiveActionSet_t := mkActiveActionSet {
  ulActionSet : VRActionSetHandle_t;
  ulRestrictedToDevice : VRInputValueHandle_t;
  ulSecondaryActionSet : VRActionSetHandle_t;
  unPadding : Z;
  nPriority : Z
}.

(** ** The wrapper's own types (ivrinput.h) *)

Inductive ActionType := Digital | Analog.

Definition ActionType_eqb (x y : ActionType) : bool :=
  match x, y with
  | Digital, Digital | Analog, Analog => true
  | _, _ => false
  end.

Record Action := mkAction {
  action_name : string;
  action_type : ActionType;
  action_handle : VRActionHandle_t
}.

Record ActionSet := mkActionSet {
  set_name : string;
  set_handle : VRActionSetHandle_t
}.

(** ** The runtime interface, the log and the call trace *)

(** One argument of a [LOG( ERROR ) << ... << ...] chain. *)
Inductive LogPart := LStr (s : string) | LInt (z : Z).

Record LogEntry := LogError { log_parts : list LogPart }.

(** The runtime calls made by the wrapper, with the arguments that are not
    buffers of the wrapper's stack frame. *)
Inductive RtCall :=
| CallGetDigitalActionData (h : VRActionHandle_t) (restrict : VRInputValueHandle_t)
| CallGetAnalogActionData (h : VRActionHandle_t) (restrict : VRInputValueHandle_t)
| CallUpdateActionState (sets : list VRActiveActionSet_t) (count : Z)
| CallGetActionHandle (name : string)
| CallGetActionSetHandle (name : string).

(** The part of [vr::IVRInput] the wrapper uses.  Each method receives the
    runtime state and the contents of the out-buffer it is handed, and
    returns the new runtime state, the error code and the buffer as the
    runtime leaves it. *)
Record IVRInput (RS : Type) := {
  GetDigitalActionData :
    RS -> VRActionHandle_t -> InputDigitalActionData_t -> VRInputValueHandle_t ->
    RS * EVRInputError * InputDigitalActionData_t;
  GetAnalogActionData :
    RS -> VRActionHandle_t -> InputAnalogActionData_t -> VRInputValueHandle_t ->
    RS * EVRInputError * InputAnalogActionData_t;
  UpdateActionState :
    RS -> list VRActiveActionSet_t -> Z -> RS * EVRInputError;
  GetActionHandle : RS -> string -> RS * EVRInputError * VRActionHandle_t;
  GetActionSetHandle : RS -> string -> RS * EVRInputError * VRActionSetHandle_t
}.

Arguments GetDigitalActionData {RS}.
Arguments GetAnalogActionData {RS}.
Arguments UpdateActionState {RS}.
Arguments GetActionHandle {RS}.
Arguments GetActionSetHandle {RS}.

Record Env (RS : Type) := mkEnv {
  env_rt : RS;
  env_log : list LogEntry;
  env_trace : list RtCall
}.

Arguments mkEnv {RS}.
Arguments env_rt {RS}.
Arguments env_log {RS}.
Arguments env_trace {RS}.

(** Outcome of a C++ call: a returned value or a thrown [std::runtime_error]
    carrying its [what()] string. *)
Inductive Result (A : Type) := Ok (a : A) | Exc (what : string).
Arguments Ok {A}.
Arguments Exc {A}.

(** ** The effect monad *)

Section Monad.
Context {RS : Type}.

Definition EnvM (A : Type) := Env RS -> Result A * Env RS.

Definition ret {A} (a : A) : EnvM A := fun e => (Ok a, e).

Definition bind {A B} (m : EnvM A) (k : A -> EnvM B) : EnvM B :=
  fun e => match m e with
           | (Ok a, e') => k a e'
           | (Exc w, e') => (Exc w, e')
           end.

Definition throw {A} (what : string) : EnvM A := fun e => (Exc what, e).

Definition log_error (parts : list LogPart) : EnvM unit :=
  fun e => (Ok tt, mkEnv (env_rt e) (env_log e ++ [LogError parts]) (env_trace e)).

Definition record_call (c : RtCall) : EnvM unit :=
  fun e => (Ok tt, mkEnv (env_rt e) (env_log e) (env_trace e ++ [c])).

(** Run a runtime method on the runtime state, recording the call. *)
Definition rt_step {A} (c : RtCall) (f : RS -> RS * A) : EnvM A :=
  bind (record_call c) (fun _ e =>
    let (rs', a) := f (env_rt e) in
    (Ok a, mkEnv rs' (env_log e) (env_trace e))).

End Monad.

Notation "x <- m ;; k" := (bind m (fun x => k))
  (at level 61, m at next level, right associativity).
Notation "m ;;; k" := (bind m (fun _ => k))
  (at level 61, right associativity).

(** [if ( error != vr::EVRInputError::VRInputError_None ) { LOG( ERROR ) ... }] *)
Definition when_error {RS} (error : EVRInputError) (parts : list LogPart) : EnvM (RS:=RS) unit :=
  if negb (Z.eqb error VRInputError_None) then log_error parts else ret tt.

(** Buffer-passing runtime calls, shaped for [rt_step]. *)
Definition rt_digital {RS} (vr : IVRInput RS) (h : VRActionHandle_t)
  (buf : InputDigitalActionData_t) (restrict : VRInputValueHandle_t)
  (rs : RS) : RS * (EVRInputError * InputDigitalActionData_t) :=
  let '(rs', err, buf') := GetDigitalActionData vr rs h buf restrict in (rs', (err, buf')).

Definition rt_analog {RS} (vr : IVRInput RS) (h : VRActionHandle_t)
  (buf : InputAnalogActionData_t) (restrict : VRInputValueHandle_t)
  (rs : RS) : RS * (EVRInputError * InputAnalogActionData_t) :=
  let '(rs', err, buf') := GetAnalogActionData vr rs h buf restrict in (rs', (err, buf')).

Definition rt_action_handle {RS} (vr : IVRInput RS) (name : string)
  (rs : RS) : RS * (EVRInputError * VRActionHandle_t) :=
  let '(rs', err, h) := GetActionHandle vr rs name in (rs', (err, h)).

Definition rt_action_set_handle {RS} (vr : IVRInput RS) (name : string)
  (rs : RS) : RS * (EVRInputError * VRActionSetHandle_t) :=
  let '(rs', err, h) := GetActionSetHandle vr rs name in (rs', (err, h)).

(** ** Construction of [Action] and [ActionSet] *)

(** Modelled from the spec: the constructors [Action( name, type )] and
    [ActionSet( name )] are declared in ivrinput.h and defined outside the
    sources.  Following the spec ("opaque handle (resolved once from the
    external runtime)"; "All external-API error codes are logged only"), each
    resolves its name to a runtime handle once, logs a failing error code and
    keeps the handle the runtime reported. *)
Definition make_Action {RS} (vr : IVRInput RS) (name : string) (type : ActionType)
  : EnvM (RS:=RS) Action :=
  r <- rt_step (CallGetActionHandle name) (rt_action_handle vr name) ;;
  let '(error, handle) := r in
  when_error error [LStr name; LInt error] ;;;
  ret (mkAction name type handle).

(** Modelled from the spec: see [make_Action]. *)
Definition make_ActionSet {RS} (vr : IVRInput RS) (name : string)
  : EnvM (RS:=RS) ActionSet :=
  r <- rt_step (CallGetActionSetHandle name) (rt_action_set_handle vr name) ;;
  let '(error, handle) := r in
  when_error error [LStr name; LInt error] ;;;
  ret (mkActionSet name handle).

(** Modelled from the spec: the [input_strings] constants live in ivrinput.h,
    outside the sources; each is a manifest path, and only their identity
    matters here, so each holds its own identifier. *)
Module input_strings.
Definition k_setMain := "k_setMain".
Definition k_actionNextTrack := "k_actionNextTrack".
Definition k_actionPreviousTrack := "k_actionPreviousTrack".
Definition k_actionPausePlayTrack := "k_actionPausePlayTrack".
Definition k_actionStopTrack := "k_actionStopTrack".
Definition k_actionLeftHandPlayspaceRotate := "k_actionLeftHandPlayspaceRotate".
Definition k_actionRightHandPlayspaceRotate := "k_actionRightHandPlayspaceRotate".
Definition k_actionLeftHandPlayspaceMove := "k_actionLeftHandPlayspaceMove".
Definition k_actionRightHandPlayspaceMove := "k_actionRightHandPlayspaceMove".
Definition k_actionOptionalOverrideLeftHandPlayspaceRotate :=
  "k_actionOptionalOverrideLeftHandPlayspaceRotate".
Definition k_actionOptionalOverrideRightHandPlayspaceRotate :=
  "k_actionOptionalOverrideRightHandPlayspaceRotate".
Definition k_actionOptionalOverrideLeftHandPlayspaceMove :=
  "k_actionOptionalOverrideLeftHandPlayspaceMove".
Definition k_actionOptionalOverrideRightHandPlayspaceMove :=
  "k_actionOptionalOverrideRightHandPlayspaceMove".
Definition k_actionLeftHandRoomTurn := "k_actionLeftHandRoomTurn".
Definition k_actionRightHandRoomTurn := "k_actionRightHandRoomTurn".
Definition k_actionLeftHandRoomDrag := "k_actionLeftHandRoomDrag".
Definition k_actionRightHandRoomDrag := "k_actionRightHandRoomDrag".
Definition k_actionOptionalOverrideLeftHandRoomTurn :=
  "k_actionOptionalOverrideLeftHandRoomTurn".
Definition k_actionOptionalOverrideRightHandRoomTurn :=
  "k_actionOptionalOverrideRightHandRoomTurn".
Definition k_actionOptionalOverrideLeftHandRoomDrag :=
  "k_actionOptionalOverrideLeftHandRoomDrag".
Definition k_actionOptionalOverrideRightHandRoomDrag :=
  "k_actionOptionalOverrideRightHandRoomDrag".
Definition k_actionPushToTalk := "k_actionPushToTalk".
End input_strings.

(** A program state: the [SteamIVRInput] object and the environment.  The
    public methods run against it, reading [this] and threading the
    environment. *)
Record St (Self RS : Type) := mkSt { st_self : Self; st_env : Env RS }.
Arguments mkSt {Self RS}.
Arguments st_self {Self RS}.
Arguments st_env {Self RS}.

(** A member function call [obj.f()] on the program state. *)
Definition call {Self RS A} (f : Self -> EnvM (RS:=RS) A) (s : St Self RS)
  : Result A * St Self RS :=
  let (r, e) := f (st_self s) (st_env s) in (r, mkSt (st_self s) e).

(** ** src/src/ivrinput/ivrinput.cpp *)

Module IvrInput.
Section Code.
Context {RS : Type} (vr : IVRInput RS).

(** [getDigitalActionData], lines 20-49. *)
Definition getDigitalActionData (action : Action) : EnvM InputDigitalActionData_t :=
  if negb (ActionType_eqb (action_type action) Digital) then
    log_error [LStr ("Action was passed to IVRInput getDigitalActionData without "
                     ++ "being a digital type. Action: ");
               LStr (action_name action)] ;;;
    throw ("Action was passed to IVRInput getDigitalActionData without being "
           ++ "a digital type. See log for details.")
  else
    let handleData := zero_digital in
    r <- rt_step (CallGetDigitalActionData (action_handle action) k_ulInvalidInputValueHandle)
                 (rt_digital vr (action_handle action) handleData k_ulInvalidInputValueHandle) ;;
    let '(error, handleData) := r in
    when_error error [LStr "Error getting IVRInput Digital Action Data for handle ";
                      LStr (action_name action); LStr ". SteamVR Error: "; LInt error] ;;;
    ret handleData.

(** [getAnalogActionData], lines 62-91 (its log line says "Digital" too). *)
Definition getAnalogActionData (action : Action) : EnvM InputAnalogActionData_t :=
  if negb (ActionType_eqb (action_type action) Analog) then
    log_error [LStr ("Action was passed to IVRInput getAnalogActionData without "
                     ++ "being an analog type. Action: ");
               LStr (action_name action)] ;;;
    throw ("Action was passed to IVRInput getAnalogActionData without being "
           ++ "an analog type. See log for details.")
  else
    let handleData := zero_analog in
    r <- rt_step (CallGetAnalogActionData (action_handle action) k_ulInvalidInputValueHandle)
                 (rt_analog vr (action_handle action) handleData k_ulInvalidInputValueHandle) ;;
    let '(error, handleData) := r in
    when_error error [LStr "Error getting IVRInput Digital Action Data for handle ";
                      LStr (action_name action); LStr ". SteamVR Error: "; LInt error] ;;;
    ret handleData.

(** [isDigitalActionActivatedOnce], lines 99-104. *)
Definition isDigitalActionActivatedOnce (action : Action) : EnvM bool :=
  handleData <- getDigitalActionData action ;;
  ret (d_bState handleData && d_bChanged handleData).

(** [isDigitalActionActivatedConstant], lines 110-115. *)
Definition isDigitalActionActivatedConstant (action : Action) : EnvM bool :=
  handleData <- getDigitalActionData action ;;
  ret (d_bState handleData).

(** The class [SteamIVRInput] of this version (ivrinput.h): the main set,
    the twelve digital actions and the active action set descriptor.  The
    [m_manifest] member holds no state these operations read. *)
Record SteamIVRInput := mkSteamIVRInput {
  m_mainSet : ActionSet;
  m_nextTrack : Action;
  m_previousTrack : Action;
  m_pausePlayTrack : Action;
  m_stopTrack : Action;
  m_leftHandPlayspaceRotate : Action;
  m_rightHandPlayspaceRotate : Action;
  m_leftHandPlayspaceMove : Action;
  m_rightHandPlayspaceMove : Action;
  m_optionalOverrideLeftHandPlayspaceRotate : Action;
  m_optionalOverrideRightHandPlayspaceRotate : Action;
  m_optionalOverrideLeftHandPlayspaceMove : Action;
  m_optionalOverrideRightHandPlayspaceMove : Action;
  m_activeActionSet : VRActiveActionSet_t
}.

(** [SteamIVRInput::SteamIVRInput], lines 125-158: the members in declaration
    order, then the three assignments of the body.  [prior] is the contents
    of [m_activeActionSet] before the body runs (the fields the body does not
    assign keep it). *)
Definition SteamIVRInput_ctor (prior : VRActiveActionSet_t) : EnvM SteamIVRInput :=
  mainSet <- make_ActionSet vr input_strings.k_setMain ;;
  nextTrack <- make_Action vr input_strings.k_actionNextTrack Digital ;;
  previousTrack <- make_Action vr input_strings.k_actionPreviousTrack Digital ;;
  pausePlayTrack <- make_Action vr input_strings.k_actionPausePlayTrack Digital ;;
  stopTrack <- make_Action vr input_strings.k_actionStopTrack Digital ;;
  lRot <- make_Action vr input_strings.k_actionLeftHandPlayspaceRotate Digital ;;
  rRot <- make_Action vr input_strings.k_actionRightHandPlayspaceRotate Digital ;;
  lMove <- make_Action vr input_strings.k_actionLeftHandPlayspaceMove Digital ;;
  rMove <- make_Action vr input_strings.k_actionRightHandPlayspaceMove Digital ;;
  oLRot <- make_Action vr input_strings.k_actionOptionalOverrideLeftHandPlayspaceRotate Digital ;;
  oRRot <- make_Action vr input_strings.k_actionOptionalOverrideRightHandPlayspaceRotate Digital ;;
  oLMove <- make_Action vr input_strings.k_actionOptionalOverrideLeftHandPlayspaceMove Digital ;;
  oRMove <- make_Action vr input_strings.k_actionOptionalOverrideRightHandPlayspaceMove Digital ;;
  let set1 := {| ulActionSet := set_handle mainSet;
                 ulRestrictedToDevice := ulRestrictedToDevice prior;
                 ulSecondaryActionSet := ulSecondaryActionSet prior;
                 unPadding := unPadding prior;
                 nPriority := nPriority prior |} in
  let set2 := {| ulActionSet := ulActionSet set1;
                 ulRestrictedToDevice := k_ulInvalidInputValueHandle;
                 ulSecondaryActionSet := ulSecondaryActionSet set1;
                 unPadding := unPadding set1;
                 nPriority := nPriority set1 |} in
  let set3 := {| ulActionSet := ulActionSet set2;
                 ulRestrictedToDevice := ulRestrictedToDevice set2;
                 ulSecondaryActionSet := ulSecondaryActionSet set2;
                 unPadding := unPadding set2;
                 nPriority := 0 |} in
  ret (mkSteamIVRInput mainSet nextTrack previousTrack pausePlayTrack stopTrack
         lRot rRot lMove rMove oLRot oRRot oLMove oRMove set3).

Definition nextSong (this : SteamIVRInput) : EnvM bool :=
  isDigitalActionActivatedOnce (m_nextTrack this).
Definition previousSong (this : SteamIVRInput) : EnvM bool :=
  isDigitalActionActivatedOnce (m_previousTrack this).
Definition pausePlaySong (this : SteamIVRInput) : EnvM bool :=
  isDigitalActionActivatedOnce (m_pausePlayTrack this).
Definition stopSong (this : SteamIVRInput) : EnvM bool :=
  isDigitalActionActivatedOnce (m_stopTrack this).
Definition leftHandPlayspaceRotate (this : SteamIVRInput) : EnvM bool :=
  isDigitalActionActivatedConstant (m_leftHandPlayspaceRotate this).
Definition rightHandPlayspaceRotate (this : SteamIVRInput) : EnvM bool :=
  isDigitalActionActivatedConstant (m_rightHandPlayspaceRotate this).
Definition leftHandPlayspaceMove (this : SteamIVRInput) : EnvM bool :=
  isDigitalActionActivatedConstant (m_leftHandPlayspaceMove this).
Definition rightHandPlayspaceMove (this : SteamIVRInput) : EnvM bool :=
  isDigitalActionActivatedConstant (m_rightHandPlayspaceMove this).
Definition optionalOverrideLeftHandPlayspaceRotate (this : SteamIVRInput) : EnvM bool :=
  isDigitalActionActivatedConstant (m_optionalOverrideLeftHandPlayspaceRotate this).
Definition optionalOverrideRightHandPlayspaceRotate (this : SteamIVRInput) : EnvM bool :=
  isDigitalActionActivatedConstant (m_optionalOverrideRightHandPlayspaceRotate this).
Definition optionalOverrideLeftHandPlayspaceMove (this : SteamIVRInput) : EnvM bool :=
  isDigitalActionActivatedConstant (m_optionalOverrideLeftHandPlayspaceMove this).
Definition optionalOverrideRightHandPlayspaceMove (this : SteamIVRInput) : EnvM bool :=
  isDigitalActionActivatedConstant (m_optionalOverrideRightHandPlayspaceMove this).

(** [SteamIVRInput::UpdateStates], lines 251-264: [&m_activeActionSet] with
    [numberOfSets = 1] is the one-element array [[m_activeActionSet]]. *)
Definition UpdateStates (this : SteamIVRInput) : EnvM unit :=
  let numberOfSets := 1 in
  error <- rt_step (CallUpdateActionState [m_activeActionSet this] numberOfSets)
                   (fun rs => UpdateActionState vr rs [m_activeActionSet this] numberOfSets) ;;
  when_error error [LStr "Error during IVRInput action state update. OpenVR Error: ";
                    LInt error].


(** The action members of the object, in declaration order. *)
Definition actions (this : SteamIVRInput) : list Action :=
  [m_nextTrack this;
   m_previousTrack this;
   m_pausePlayTrack this;
   m_stopTrack this;
   m_leftHandPlayspaceRotate this;
   m_rightHandPlayspaceRotate this;
   m_leftHandPlayspaceMove this;
   m_rightHandPlayspaceMove this;
   m_optionalOverrideLeftHandPlayspaceRotate this;
   m_optionalOverrideRightHandPlayspaceRotate this;
   m_optionalOverrideLeftHandPlayspaceMove this;
   m_optionalOverrideRightHandPlayspaceMove this].

(** Every operation of the module on a [SteamIVRInput] object: the four free
    functions on an action the caller picks (a member or any other), each
    public query method, and [UpdateStates].  Results are dropped. *)
Inductive Query :=
| QgetDigitalActionData (sel : SteamIVRInput -> Action)
| QgetAnalogActionData (sel : SteamIVRInput -> Action)
| QisDigitalActionActivatedOnce (sel : SteamIVRInput -> Action)
| QisDigitalActionActivatedConstant (sel : SteamIVRInput -> Action)
| QnextSong
| QpreviousSong
| QpausePlaySong
| QstopSong
| QleftHandPlayspaceRotate
| QrightHandPlayspaceRotate
| QleftHandPlayspaceMove
| QrightHandPlayspaceMove
| QoptionalOverrideLeftHandPlayspaceRotate
| QoptionalOverrideRightHandPlayspaceRotate
| QoptionalOverrideLeftHandPlayspaceMove
| QoptionalOverrideRightHandPlayspaceMove
| QUpdateStates.

Definition query_body (q : Query) (this : SteamIVRInput) : EnvM unit :=
  match q with
  | QgetDigitalActionData sel => getDigitalActionData (sel this) ;;; ret tt
  | QgetAnalogActionData sel => getAnalogActionData (sel this) ;;; ret tt
  | QisDigitalActionActivatedOnce sel => isDigitalActionActivatedOnce (sel this) ;;; ret tt
  | QisDigitalActionActivatedConstant sel => isDigitalActionActivatedConstant (sel this) ;;; ret tt
  | QnextSong => nextSong this ;;; ret tt
  | QpreviousSong => previousSong this ;;; ret tt
  | QpausePlaySong => pausePlaySong this ;;; ret tt
  | QstopSong => stopSong this ;;; ret tt
  | QleftHandPlayspaceRotate => leftHandPlayspaceRotate this ;;; ret tt
  | QrightHandPlayspaceRotate => rightHandPlayspaceRotate this ;;; ret tt
  | QleftHandPlayspaceMove => leftHandPlayspaceMove this ;;; ret tt
  | QrightHandPlayspaceMove => rightHandPlayspaceMove this ;;; ret tt
  | QoptionalOverrideLeftHandPlayspaceRotate => optionalOverrideLeftHandPlayspaceRotate this ;;; ret tt
  | QoptionalOverrideRightHandPlayspaceRotate => optionalOverrideRightHandPlayspaceRotate this ;;; ret tt
  | QoptionalOverrideLeftHandPlayspaceMove => optionalOverrideLeftHandPlayspaceMove this ;;; ret tt
  | QoptionalOverrideRightHandPlayspaceMove => optionalOverrideRightHandPlayspaceMove this ;;; ret tt
  | QUpdateStates => UpdateStates this
  end.

Definition run_query (q : Query) (s : St SteamIVRInput RS) : Result unit * St SteamIVRInput RS :=
  call (query_body q) s.

(** The public query methods of the class. *)
Definition public_queries : list Query :=
  [QnextSong;
   QpreviousSong;
   QpausePlaySong;
   QstopSong;
   QleftHandPlayspaceRotate;
   QrightHandPlayspaceRotate;
   QleftHandPlayspaceMove;
   QrightHandPlayspaceMove;
   QoptionalOverrideLeftHandPlayspaceRotate;
   QoptionalOverrideRightHandPlayspaceRotate;
   QoptionalOverrideLeftHandPlayspaceMove;
   QoptionalOverrideRightHandPlayspaceMove].

End Code.
End IvrInput.

(** ** src/unnamed/part_001

    The same file in the version whose class names its turn and drag
    actions "room" and has a push-to-talk action.  Lines 20-115 are the same
    text as in the other version; they are translated again here so that the
    two translations can be compared. *)

Module IvrInputRoom.
Section Code.
Context {RS : Type} (vr : IVRInput RS).

(** [getDigitalActionData], lines 20-49. *)
Definition getDigitalActionData (action : Action) : EnvM InputDigitalActionData_t :=
  if negb (ActionType_eqb (action_type action) Digital) then
    log_error [LStr ("Action was passed to IVRInput getDigitalActionData without "
                     ++ "being a digital type. Action: ");
               LStr (action_name action)] ;;;
    throw ("Action was passed to IVRInput getDigitalActionData without being "
           ++ "a digital type. See log for details.")
  else
    let handleData := zero_digital in
    r <- rt_step (CallGetDigitalActionData (action_handle action) k_ulInvalidInputValueHandle)
                 (rt_digital vr (action_handle action) handleData k_ulInvalidInputValueHandle) ;;
    let '(error, handleData) := r in
    when_error error [LStr "Error getting IVRInput Digital Action Data for handle ";
                      LStr (action_name action); LStr ". SteamVR Error: "; LInt error] ;;;
    ret handleData.

(** [getAnalogActionData], lines 62-91 (its log line says "Digital" too). *)
Definition getAnalogActionData (action : Action) : EnvM InputAnalogActionData_t :=
  if negb (ActionType_eqb (action_type action) Analog) then
    log_error [LStr ("Action was passed to IVRInput getAnalogActionData without "
                     ++ "being an analog type. Action: ");
               LStr (action_name action)] ;;;
    throw ("Action was passed to IVRInput getAnalogActionData without being "
           ++ "an analog type. See log for details.")
  else
    let handleData := zero_analog in
    r <- rt_step (CallGetAnalogActionData (action_handle action) k_ulInvalidInputValueHandle)
                 (rt_analog vr (action_handle action) handleData k_ulInvalidInputValueHandle) ;;
    let '(error, handleData) := r in
    when_error error [LStr "Error getting IVRInput Digital Action Data for handle ";
                      LStr (action_name action); LStr ". SteamVR Error: "; LInt error] ;;;
    ret handleData.

(** [isDigitalActionActivatedOnce], lines 99-104. *)
Definition isDigitalActionActivatedOnce (action : Action) : EnvM bool :=
  handleData <- getDigitalActionData action ;;
  ret (d_bState handleData && d_bChanged handleData).

(** [isDigitalActionActivatedConstant], lines 110-115. *)
Definition isDigitalActionActivatedConstant (action : Action) : EnvM bool :=
  handleData <- getDigitalActionData action ;;
  ret (d_bState handleData).

(** The class [SteamIVRInput] of this version (ivrinput.h): the main set,
    the thirteen digital actions and the active action set descriptor.  The
    [m_manifest] member holds no state these operations read. *)
Record SteamIVRInput := mkSteamIVRInput {
  m_mainSet : ActionSet;
  m_nextTrack : Action;
  m_previousTrack : Action;
  m_pausePlayTrack : Action;
  m_stopTrack : Action;
  m_leftHandRoomTurn : Action;
  m_rightHandRoomTurn : Action;
  m_leftHandRoomDrag : Action;
  m_rightHandRoomDrag : Action;
  m_optionalOverrideLeftHandRoomTurn : Action;
  m_optionalOverrideRightHandRoomTurn : Action;
  m_optionalOverrideLeftHandRoomDrag : Action;
  m_optionalOverrideRightHandRoomDrag : Action;
  m_pushToTalk : Action;
  m_activeActionSet : VRActiveActionSet_t
}.

(** [SteamIVRInput::SteamIVRInput], lines 125-158: the members in declaration
    order, then the three assignments of the body.  [prior] is the contents
    of [m_activeActionSet] before the body runs (the fields the body does not
    assign keep it). *)
Definition SteamIVRInput_ctor (prior : VRActiveActionSet_t) : EnvM SteamIVRInput :=
  mainSet <- make_ActionSet vr input_strings.k_setMain ;;
  nextTrack <- make_Action vr input_strings.k_actionNextTrack Digital ;;
  previousTrack <- make_Action vr input_strings.k_actionPreviousTrack Digital ;;
  pausePlayTrack <- make_Action vr input_strings.k_actionPausePlayTrack Digital ;;
  stopTrack <- make_Action vr input_strings.k_actionStopTrack Digital ;;
  lRot <- make_Action vr input_strings.k_actionLeftHandRoomTurn Digital ;;
  rRot <- make_Action vr input_strings.k_actionRightHandRoomTurn Digital ;;
  lMove <- make_Action vr input_strings.k_actionLeftHandRoomDrag Digital ;;
  rMove <- make_Action vr input_strings.k_actionRightHandRoomDrag Digital ;;
  oLRot <- make_Action vr input_strings.k_actionOptionalOverrideLeftHandRoomTurn Digital ;;
  oRRot <- make_Action vr input_strings.k_actionOptionalOverrideRightHandRoomTurn Digital ;;
  oLMove <- make_Action vr input_strings.k_actionOptionalOverrideLeftHandRoomDrag Digital ;;
  oRMove <- make_Action vr input_strings.k_actionOptionalOverrideRightHandRoomDrag Digital ;;
  pushToTalk <- make_Action vr input_strings.k_actionPushToTalk Digital ;;
  let set1 := {| ulActionSet := set_handle mainSet;
                 ulRestrictedToDevice := ulRestrictedToDevice prior;
                 ulSecondaryActionSet := ulSecondaryActionSet prior;
                 unPadding := unPadding prior;
                 nPriority := nPriority prior |} in
  let set2 := {| ulActionSet := ulActionSet set1;
                 ulRestrictedToDevice := k_ulInvalidInputValueHandle;
                 ulSecondaryActionSet := ulSecondaryActionSet set1;
                 unPadding := unPadding set1;
                 nPriority := nPriority set1 |} in
  let set3 := {| ulActionSet := ulActionSet set2;
                 ulRestrictedToDevice := ulRestrictedToDevice set2;
                 ulSecondaryActionSet := ulSecondaryActionSet set2;
                 unPadding := unPadding set2;
                 nPriority := 0 |} in
  ret (mkSteamIVRInput mainSet nextTrack previousTrack pausePlayTrack stopTrack
         lRot rRot lMove rMove oLRot oRRot oLMove oRMove pushToTalk set3).

Definition nextSong (this : SteamIVRInput) : EnvM bool :=
  isDigitalActionActivatedOnce (m_nextTrack this).
Definition previousSong (this : SteamIVRInput) : EnvM bool :=
  isDigitalActionActivatedOnce (m_previousTrack this).
Definition pausePlaySong (this : SteamIVRInput) : EnvM bool :=
  isDigitalActionActivatedOnce (m_pausePlayTrack this).
Definition stopSong (this : SteamIVRInput) : EnvM bool :=
  isDigitalActionActivatedOnce (m_stopTrack this).
Definition leftHandRoomTurn (this : SteamIVRInput) : EnvM bool :=
  isDigitalActionActivatedConstant (m_leftHandRoomTurn this).
Definition rightHandRoomTurn (this : SteamIVRInput) : EnvM bool :=
  isDigitalActionActivatedConstant (m_rightHandRoomTurn this).
Definition leftHandRoomDrag (this : SteamIVRInput) : EnvM bool :=
  isDigitalActionActivatedConstant (m_leftHandRoomDrag this).
Definition rightHandRoomDrag (this : SteamIVRInput) : EnvM bool :=
  isDigitalActionActivatedConstant (m_rightHandRoomDrag this).
Definition optionalOverrideLeftHandRoomTurn (this : SteamIVRInput) : EnvM bool :=
  isDigitalActionActivatedConstant (m_optionalOverrideLeftHandRoomTurn this).
Definition optionalOverrideRightHandRoomTurn (this : SteamIVRInput) : EnvM bool :=
  isDigitalActionActivatedConstant (m_optionalOverrideRightHandRoomTurn this).
Definition optionalOverrideLeftHandRoomDrag (this : SteamIVRInput) : EnvM bool :=
  isDigitalActionActivatedConstant (m_optionalOverrideLeftHandRoomDrag this).
Definition optionalOverrideRightHandRoomDrag (this : SteamIVRInput) : EnvM bool :=
  isDigitalActionActivatedConstant (m_optionalOverrideRightHandRoomDrag this).
Definition pushToTalk (this : SteamIVRInput) : EnvM bool :=
  isDigitalActionActivatedConstant (m_pushToTalk this).

(** [SteamIVRInput::UpdateStates], lines 256-269: [&m_activeActionSet] with
    [numberOfSets = 1] is the one-element array [[m_activeActionSet]]. *)
Definition UpdateStates (this : SteamIVRInput) : EnvM unit :=
  let numberOfSets := 1 in
  error <- rt_step (CallUpdateActionState [m_activeActionSet this] numberOfSets)
                   (fun rs => UpdateActionState vr rs [m_activeActionSet this] numberOfSets) ;;
  when_error error [LStr "Error during IVRInput action state update. OpenVR Error: ";
                    LInt error].


(** The action members of the object, in declaration order. *)
Definition actions (this : SteamIVRInput) : list Action :=
  [m_nextTrack this;
   m_previousTrack this;
   m_pausePlayTrack this;
   m_stopTrack this;
   m_leftHandRoomTurn this;
   m_rightHandRoomTurn this;
   m_leftHandRoomDrag this;
   m_rightHandRoomDrag this;
   m_optionalOverrideLeftHandRoomTurn this;
   m_optionalOverrideRightHandRoomTurn this;
   m_optionalOverrideLeftHandRoomDrag this;
   m_optionalOverrideRightHandRoomDrag this;
   m_pushToTalk this].

(** Every operation of the module on a [SteamIVRInput] object: the four free
    functions on an action the caller picks (a member or any other), each
    public query method, and [UpdateStates].  Results are dropped. *)
Inductive Query :=
| QgetDigitalActionData (sel : SteamIVRInput -> Action)
| QgetAnalogActionData (sel : SteamIVRInput -> Action)
| QisDigitalActionActivatedOnce (sel : SteamIVRInput -> Action)
| QisDigitalActionActivatedConstant (sel : SteamIVRInput -> Action)
| QnextSong
| QpreviousSong
| QpausePlaySong
| QstopSong
| QleftHandRoomTurn
| QrightHandRoomTurn
| QleftHandRoomDrag
| QrightHandRoomDrag
| QoptionalOverrideLeftHandRoomTurn
| QoptionalOverrideRightHandRoomTurn
| QoptionalOverrideLeftHandRoomDrag
| QoptionalOverrideRightHandRoomDrag
| QpushToTalk
| QUpdateStates.

Definition query_body (q : Query) (this : SteamIVRInput) : EnvM unit :=
  match q with
  | QgetDigitalActionData sel => getDigitalActionData (sel this) ;;; ret tt
  | QgetAnalogActionData sel => getAnalogActionData (sel this) ;;; ret tt
  | QisDigitalActionActivatedOnce sel => isDigitalActionActivatedOnce (sel this) ;;; ret tt
  | QisDigitalActionActivatedConstant sel => isDigitalActionActivatedConstant (sel this) ;;; ret tt
  | QnextSong => nextSong this ;;; ret tt
  | QpreviousSong => previousSong this ;;; ret tt
  | QpausePlaySong => pausePlaySong this ;;; ret tt
  | QstopSong => stopSong this ;;; ret tt
  | QleftHandRoomTurn => leftHandRoomTurn this ;;; ret tt
  | QrightHandRoomTurn => rightHandRoomTurn this ;;; ret tt
  | QleftHandRoomDrag => leftHandRoomDrag this ;;; ret tt
  | QrightHandRoomDrag => rightHandRoomDrag this ;;; ret tt
  | QoptionalOverrideLeftHandRoomTurn => optionalOverrideLeftHandRoomTurn this ;;; ret tt
  | QoptionalOverrideRightHandRoomTurn => optionalOverrideRightHandRoomTurn this ;;; ret tt
  | QoptionalOverrideLeftHandRoomDrag => optionalOverrideLeftHandRoomDrag this ;;; ret tt
  | QoptionalOverrideRightHandRoomDrag => optionalOverrideRightHandRoomDrag this ;;; ret tt
  | QpushToTalk => pushToTalk this ;;; ret tt
  | QUpdateStates => UpdateStates this
  end.

Definition run_query (q : Query) (s : St SteamIVRInput RS) : Result unit * St SteamIVRInput RS :=
  call (query_body q) s.

(** The public query methods of the class. *)
Definition public_queries : list Query :=
  [QnextSong;
   QpreviousSong;
   QpausePlaySong;
   QstopSong;
   QleftHandRoomTurn;
   QrightHandRoomTurn;
   QleftHandRoomDrag;
   QrightHandRoomDrag;
   QoptionalOverrideLeftHandRoomTurn;
   QoptionalOverrideRightHandRoomTurn;
   QoptionalOverrideLeftHandRoomDrag;
   QoptionalOverrideRightHandRoomDrag;
   QpushToTalk].

End Code.
End IvrInputRoom.

(** ** The object of src/src/ivrinput/ivrinput.cpp in memory

    The value-level embedding above passes each [Action&] and [this] by
    copy.  Here the same code runs against a store that holds the object's
    fields and the local [handleData] buffers, so that what each runtime
    call may write is exactly the object the code hands it a pointer to:
    [&handleData] in the data accessors, [&m_activeActionSet] in
    [UpdateStates].  The runtime writes its new contents back through that
    pointer; nothing else is written by it. *)

Module IvrInputMem.

(** The fields of the object; the action members are numbered in
    declaration order (0 = [m_nextTrack], ..., 11 =
    [m_optionalOverrideRightHandPlayspaceMove]). *)
Inductive Field := FMainSet | FAction (i : nat) | FActiveActionSet.

(** Addresses: a field of the object, or the [handleData] local of
    [getDigitalActionData] / [getAnalogActionData]. *)
Inductive Ptr := PField (f : Field) | PDigitalHandleData | PAnalogHandleData.

Definition Field_eqb (f g : Field) : bool :=
  match f, g with
  | FMainSet, FMainSet | FActiveActionSet, FActiveActionSet => true
  | FAction i, FAction j => Nat.eqb i j
  | _, _ => false
  end.

Definition Ptr_eqb (p q : Ptr) : bool :=
  match p, q with
  | PField f, PField g => Field_eqb f g
  | PDigitalHandleData, PDigitalHandleData | PAnalogHandleData, PAnalogHandleData => true
  | _, _ => false
  end.

(** The contents of a memory cell. *)
Inductive Val :=
| VActionSet (s : ActionSet)
| VAction (a : Action)
| VActiveSet (s : VRActiveActionSet_t)
| VDigital (d : InputDigitalActionData_t)
| VAnalog (d : InputAnalogActionData_t).

(** [None]: not initialised. *)
Definition Mem := Ptr -> option Val.

Definition mem_update (m : Mem) (p : Ptr) (v : Val) : Mem :=
  fun q => if Ptr_eqb p q then Some v else m q.

Record HEnv (RS : Type) := mkHEnv { h_env : Env RS; h_mem : Mem }.
Arguments mkHEnv {RS}.
Arguments h_env {RS}.
Arguments h_mem {RS}.

Section Code.
Context {RS : Type} (vr : IVRInput RS)
  (** [UpdateActionState] takes a non-const [VRActiveActionSet_t*]: this view
      of it also returns the contents it leaves in the array. *)
  (UpdateActionStateW : RS -> list VRActiveActionSet_t -> Z ->
                        RS * EVRInputError * list VRActiveActionSet_t).

(** A step either reads a cell that does not hold an object of the type
    read (undefined behaviour, [None]) or ends with a result. *)
Definition HM (A : Type) := HEnv RS -> option (Result A * HEnv RS).

Definition hret {A} (a : A) : HM A := fun h => Some (Ok a, h).

Definition hbind {A B} (m : HM A) (k : A -> HM B) : HM B :=
  fun h => match m h with
           | Some (Ok a, h') => k a h'
           | Some (Exc w, h') => Some (Exc w, h')
           | None => None
           end.

(** Run a step of the value-level code on the environment part. *)
Definition lift {A} (m : EnvM (RS:=RS) A) : HM A :=
  fun h => let (r, e') := m (h_env h) in Some (r, mkHEnv e' (h_mem h)).

Definition store (p : Ptr) (v : Val) : HM unit :=
  fun h => Some (Ok tt, mkHEnv (h_env h) (mem_update (h_mem h) p v)).

Definition load_action (p : Ptr) : HM Action :=
  fun h => match h_mem h p with Some (VAction a) => Some (Ok a, h) | _ => None end.
Definition load_digital (p : Ptr) : HM InputDigitalActionData_t :=
  fun h => match h_mem h p with Some (VDigital d) => Some (Ok d, h) | _ => None end.
Definition load_analog (p : Ptr) : HM InputAnalogActionData_t :=
  fun h => match h_mem h p with Some (VAnalog d) => Some (Ok d, h) | _ => None end.
Definition load_active (p : Ptr) : HM VRActiveActionSet_t :=
  fun h => match h_mem h p with Some (VActiveSet s) => Some (Ok s, h) | _ => None end.

End Code.

Notation "x <~ m ;; k" := (hbind m (fun x => k))
  (at level 61, m at next level, right associativity).
Notation "m ;;~ k" := (hbind m (fun _ => k))
  (at level 61, right associativity).

Section Code2.
Context {RS : Type} (vr : IVRInput RS)
  (UpdateActionStateW : RS -> list VRActiveActionSet_t -> Z ->
                        RS * EVRInputError * list VRActiveActionSet_t).

(** [getDigitalActionData( Action& action )], lines 20-49: [action] is the
    address of the action; [action.type()], [action.handle()] and
    [action.name()] read it where the code calls them. *)
Definition getDigitalActionData (action : Ptr) : HM (RS:=RS) InputDigitalActionData_t :=
  a <~ load_action action ;;
  if negb (ActionType_eqb (action_type a) Digital) then
    a1 <~ load_action action ;;
    lift (log_error [LStr ("Action was passed to IVRInput getDigitalActionData without "
                           ++ "being a digital type. Action: ");
                     LStr (action_name a1)]) ;;~
    lift (throw ("Action was passed to IVRInput getDigitalActionData without being "
                 ++ "a digital type. See log for details."))
  else
    store PDigitalHandleData (VDigital zero_digital) ;;~
    a2 <~ load_action action ;;
    buf <~ load_digital PDigitalHandleData ;;
    r <~ lift (rt_step (CallGetDigitalActionData (action_handle a2) k_ulInvalidInputValueHandle)
                       (rt_digital vr (action_handle a2) buf k_ulInvalidInputValueHandle)) ;;
    let '(error, written) := r in
    store PDigitalHandleData (VDigital written) ;;~
    a3 <~ load_action action ;;
    lift (when_error error [LStr "Error getting IVRInput Digital Action Data for handle ";
                            LStr (action_name a3); LStr ". SteamVR Error: "; LInt error]) ;;~
    load_digital PDigitalHandleData.

(** [getAnalogActionData( Action& action )], lines 62-91. *)
Definition getAnalogActionData (action : Ptr) : HM (RS:=RS) InputAnalogActionData_t :=
  a <~ load_action action ;;
  if negb (ActionType_eqb (action_type a) Analog) then
    a1 <~ load_action action ;;
    lift (log_error [LStr ("Action was passed to IVRInput getAnalogActionData without "
                           ++ "being an analog type. Action: ");
                     LStr (action_name a1)]) ;;~
    lift (throw ("Action was passed to IVRInput getAnalogActionData without being "
                 ++ "an analog type. See log for details."))
  else
    store PAnalogHandleData (VAnalog zero_analog) ;;~
    a2 <~ load_action action ;;
    buf <~ load_analog PAnalogHandleData ;;
    r <~ lift (rt_step (CallGetAnalogActionData (action_handle a2) k_ulInvalidInputValueHandle)
                       (rt_analog vr (action_handle a2) buf k_ulInvalidInputValueHandle)) ;;
    let '(error, written) := r in
    store PAnalogHandleData (VAnalog written) ;;~
    a3 <~ load_action action ;;
    lift (when_error error [LStr "Error getting IVRInput Digital Action Data for handle ";
                            LStr (action_name a3); LStr ". SteamVR Error: "; LInt error]) ;;~
    load_analog PAnalogHandleData.

(** Lines 99-104. *)
Definition isDigitalActionActivatedOnce (action : Ptr) : HM (RS:=RS) bool :=
  handleData <~ getDigitalActionData action ;;
  hret (d_bState handleData && d_bChanged handleData).

(** Lines 110-115. *)
Definition isDigitalActionActivatedConstant (action : Ptr) : HM (RS:=RS) bool :=
  handleData <~ getDigitalActionData action ;;
  hret (d_bState handleData).

(** The addresses of the members. *)
Definition m_nextTrack := PField (FAction 0).
Definition m_previousTrack := PField (FAction 1).
Definition m_pausePlayTrack := PField (FAction 2).
Definition m_stopTrack := PField (FAction 3).
Definition m_leftHandPlayspaceRotate := PField (FAction 4).
Definition m_rightHandPlayspaceRotate := PField (FAction 5).
Definition m_leftHandPlayspaceMove := PField (FAction 6).
Definition m_rightHandPlayspaceMove := PField (FAction 7).
Definition m_optionalOverrideLeftHandPlayspaceRotate := PField (FAction 8).
Definition m_optionalOverrideRightHandPlayspaceRotate := PField (FAction 9).
Definition m_optionalOverrideLeftHandPlayspaceMove := PField (FAction 10).
Definition m_optionalOverrideRightHandPlayspaceMove := PField (FAction 11).
Definition m_activeActionSet := PField FActiveActionSet.
Definition m_mainSet := PField FMainSet.

(** [SteamIVRInput::SteamIVRInput], lines 125-158: the members are computed
    as in [IvrInput.SteamIVRInput_ctor] (from the previous contents [prior]
    of [m_activeActionSet]) and the object's fields then hold them. *)
Definition SteamIVRInput_ctor (prior : VRActiveActionSet_t) : HM (RS:=RS) unit :=
  this <~ lift (IvrInput.SteamIVRInput_ctor vr prior) ;;
  store m_mainSet (VActionSet (IvrInput.m_mainSet this)) ;;~
  store m_nextTrack (VAction (IvrInput.m_nextTrack this)) ;;~
  store m_previousTrack (VAction (IvrInput.m_previousTrack this)) ;;~
  store m_pausePlayTrack (VAction (IvrInput.m_pausePlayTrack this)) ;;~
  store m_stopTrack (VAction (IvrInput.m_stopTrack this)) ;;~
  store m_leftHandPlayspaceRotate (VAction (IvrInput.m_leftHandPlayspaceRotate this)) ;;~
  store m_rightHandPlayspaceRotate (VAction (IvrInput.m_rightHandPlayspaceRotate this)) ;;~
  store m_leftHandPlayspaceMove (VAction (IvrInput.m_leftHandPlayspaceMove this)) ;;~
  store m_rightHandPlayspaceMove (VAction (IvrInput.m_rightHandPlayspaceMove this)) ;;~
  store m_optionalOverrideLeftHandPlayspaceRotate
    (VAction (IvrInput.m_optionalOverrideLeftHandPlayspaceRotate this)) ;;~
  store m_optionalOverrideRightHandPlayspaceRotate
    (VAction (IvrInput.m_optionalOverrideRightHandPlayspaceRotate this)) ;;~
  store m_optionalOverrideLeftHandPlayspaceMove
    (VAction (IvrInput.m_optionalOverrideLeftHandPlayspaceMove this)) ;;~
  store m_optionalOverrideRightHandPlayspaceMove
    (VAction (IvrInput.m_optionalOverrideRightHandPlayspaceMove this)) ;;~
  store m_activeActionSet (VActiveSet (IvrInput.m_activeActionSet this)).

Definition nextSong : HM (RS:=RS) bool := isDigitalActionActivatedOnce m_nextTrack.
Definition previousSong : HM (RS:=RS) bool := isDigitalActionActivatedOnce m_previousTrack.
Definition pausePlaySong : HM (RS:=RS) bool := isDigitalActionActivatedOnce m_pausePlayTrack.
Definition stopSong : HM (RS:=RS) bool := isDigitalActionActivatedOnce m_stopTrack.
Definition leftHandPlayspaceRotate : HM (RS:=RS) bool :=
  isDigitalActionActivatedConstant m_leftHandPlayspaceRotate.
Definition rightHandPlayspaceRotate : HM (RS:=RS) bool :=
  isDigitalActionActivatedConstant m_rightHandPlayspaceRotate.
Definition leftHandPlayspaceMove : HM (RS:=RS) bool :=
  isDigitalActionActivatedConstant m_leftHandPlayspaceMove.
Definition rightHandPlayspaceMove : HM (RS:=RS) bool :=
  isDigitalActionActivatedConstant m_rightHandPlayspaceMove.
Definition optionalOverrideLeftHandPlayspaceRotate : HM (RS:=RS) bool :=
  isDigitalActionActivatedConstant m_optionalOverrideLeftHandPlayspaceRotate.
Definition optionalOverrideRightHandPlayspaceRotate : HM (RS:=RS) bool :=
  isDigitalActionActivatedConstant m_optionalOverrideRightHandPlayspaceRotate.
Definition optionalOverrideLeftHandPlayspaceMove : HM (RS:=RS) bool :=
  isDigitalActionActivatedConstant m_optionalOverrideLeftHandPlayspaceMove.
Definition optionalOverrideRightHandPlayspaceMove : HM (RS:=RS) bool :=
  isDigitalActionActivatedConstant m_optionalOverrideRightHandPlayspaceMove.

(** The runtime may write up to [count] elements of the array it is handed;
    here the array is the single [m_activeActionSet]. *)
Definition write_back_sets (sets : list VRActiveActionSet_t) : HM (RS:=RS) unit :=
  match sets with
  | s :: _ => store m_activeActionSet (VActiveSet s)
  | [] => hret tt
  end.

(** [SteamIVRInput::UpdateStates], lines 251-264. *)
Definition UpdateStates : HM (RS:=RS) unit :=
  let numberOfSets := 1 in
  set <~ load_active m_activeActionSet ;;
  r <~ lift (rt_step (CallUpdateActionState [set] numberOfSets)
                     (fun rs => let '(rs', error, written) :=
                                  UpdateActionStateW rs [set] numberOfSets in
                                (rs', (error, written)))) ;;
  let '(error, written) := r in
  write_back_sets written ;;~
  lift (when_error error [LStr "Error during IVRInput action state update. OpenVR Error: ";
                          LInt error]).

(** The operations after construction: the free functions on an action
    anywhere in memory, the public queries and [UpdateStates]. *)
Inductive Query :=
| QgetDigitalActionData (action : Ptr)
| QgetAnalogActionData (action : Ptr)
| QisDigitalActionActivatedOnce (action : Ptr)
| QisDigitalActionActivatedConstant (action : Ptr)
| QnextSong | QpreviousSong | QpausePlaySong | QstopSong
| QleftHandPlayspaceRotate | QrightHandPlayspaceRotate
| QleftHandPlayspaceMove | QrightHandPlayspaceMove
| QoptionalOverrideLeftHandPlayspaceRotate | QoptionalOverrideRightHandPlayspaceRotate
| QoptionalOverrideLeftHandPlayspaceMove | QoptionalOverrideRightHandPlayspaceMove
| QUpdateStates.

Definition run_query (q : Query) : HM (RS:=RS) unit :=
  match q with
  | QgetDigitalActionData p => getDigitalActionData p ;;~ hret tt
  | QgetAnalogActionData p => getAnalogActionData p ;;~ hret tt
  | QisDigitalActionActivatedOnce p => isDigitalActionActivatedOnce p ;;~ hret tt
  | QisDigitalActionActivatedConstant p => isDigitalActionActivatedConstant p ;;~ hret tt
  | QnextSong => nextSong ;;~ hret tt
  | QpreviousSong => previousSong ;;~ hret tt
  | QpausePlaySong => pausePlaySong ;;~ hret tt
  | QstopSong => stopSong ;;~ hret tt
  | QleftHandPlayspaceRotate => leftHandPlayspaceRotate ;;~ hret tt
  | QrightHandPlayspaceRotate => rightHandPlayspaceRotate ;;~ hret tt
  | QleftHandPlayspaceMove => leftHandPlayspaceMove ;;~ hret tt
  | QrightHandPlayspaceMove => rightHandPlayspaceMove ;;~ hret tt
  | QoptionalOverrideLeftHandPlayspaceRotate => optionalOverrideLeftHandPlayspaceRotate ;;~ hret tt
  | QoptionalOverrideRightHandPlayspaceRotate => optionalOverrideRightHandPlayspaceRotate ;;~ hret tt
  | QoptionalOverrideLeftHandPlayspaceMove => optionalOverrideLeftHandPlayspaceMove ;;~ hret tt
  | QoptionalOverrideRightHandPlayspaceMove => optionalOverrideRightHandPlayspaceMove ;;~ hret tt
  | QUpdateStates => UpdateStates
  end.

End Code2.
End IvrInputMem.

(** ** The object of src/unnamed/part_001 in memory

    Lines 20-115 and [UpdateStates] are the same text as in the other
    version, so their memory-level translations are shared; the class has
    thirteen action members ([m_pushToTalk] is number 12). *)

Module IvrInputRoomMem.
Import IvrInputMem.

Section Code.
Context {RS : Type} (vr : IVRInput RS)
  (UpdateActionStateW : RS -> list VRActiveActionSet_t -> Z ->
                        RS * EVRInputError * list VRActiveActionSet_t).

Definition m_nextTrack := PField (FAction 0).
Definition m_previousTrack := PField (FAction 1).
Definition m_pausePlayTrack := PField (FAction 2).
Definition m_stopTrack := PField (FAction 3).
Definition m_leftHandRoomTurn := PField (FAction 4).
Definition m_rightHandRoomTurn := PField (FAction 5).
Definition m_leftHandRoomDrag := PField (FAction 6).
Definition m_rightHandRoomDrag := PField (FAction 7).
Definition m_optionalOverrideLeftHandRoomTurn := PField (FAction 8).
Definition m_optionalOverrideRightHandRoomTurn := PField (FAction 9).
Definition m_optionalOverrideLeftHandRoomDrag := PField (FAction 10).
Definition m_optionalOverrideRightHandRoomDrag := PField (FAction 11).
Definition m_pushToTalk := PField (FAction 12).

(** [SteamIVRInput::SteamIVRInput], lines 125-158. *)
Definition SteamIVRInput_ctor (prior : VRActiveActionSet_t) : HM (RS:=RS) unit :=
  this <~ lift (IvrInputRoom.SteamIVRInput_ctor vr prior) ;;
  store m_mainSet (VActionSet (IvrInputRoom.m_mainSet this)) ;;~
  store m_nextTrack (VAction (IvrInputRoom.m_nextTrack this)) ;;~
  store m_previousTrack (VAction (IvrInputRoom.m_previousTrack this)) ;;~
  store m_pausePlayTrack (VAction (IvrInputRoom.m_pausePlayTrack this)) ;;~
  store m_stopTrack (VAction (IvrInputRoom.m_stopTrack this)) ;;~
  store m_leftHandRoomTurn (VAction (IvrInputRoom.m_leftHandRoomTurn this)) ;;~
  store m_rightHandRoomTurn (VAction (IvrInputRoom.m_rightHandRoomTurn this)) ;;~
  store m_leftHandRoomDrag (VAction (IvrInputRoom.m_leftHandRoomDrag this)) ;;~
  store m_rightHandRoomDrag (VAction (IvrInputRoom.m_rightHandRoomDrag this)) ;;~
  store m_optionalOverrideLeftHandRoomTurn
    (VAction (IvrInputRoom.m_optionalOverrideLeftHandRoomTurn this)) ;;~
  store m_optionalOverrideRightHandRoomTurn
    (VAction (IvrInputRoom.m_optionalOverrideRightHandRoomTurn this)) ;;~
  store m_optionalOverrideLeftHandRoomDrag
    (VAction (IvrInputRoom.m_optionalOverrideLeftHandRoomDrag this)) ;;~
  store m_optionalOverrideRightHandRoomDrag
    (VAction (IvrInputRoom.m_optionalOverrideRightHandRoomDrag this)) ;;~
  store m_pushToTalk (VAction (IvrInputRoom.m_pushToTalk this)) ;;~
  store m_activeActionSet (VActiveSet (IvrInputRoom.m_activeActionSet this)).

Definition nextSong : HM (RS:=RS) bool := isDigitalActionActivatedOnce vr m_nextTrack.
Definition previousSong : HM (RS:=RS) bool := isDigitalActionActivatedOnce vr m_previousTrack.
Definition pausePlaySong : HM (RS:=RS) bool := isDigitalActionActivatedOnce vr m_pausePlayTrack.
Definition stopSong : HM (RS:=RS) bool := isDigitalActionActivatedOnce vr m_stopTrack.
Definition leftHandRoomTurn : HM (RS:=RS) bool :=
  isDigitalActionActivatedConstant vr m_leftHandRoomTurn.
Definition rightHandRoomTurn : HM (RS:=RS) bool :=
  isDigitalActionActivatedConstant vr m_rightHandRoomTurn.
Definition leftHandRoomDrag : HM (RS:=RS) bool :=
  isDigitalActionActivatedConstant vr m_leftHandRoomDrag.
Definition rightHandRoomDrag : HM (RS:=RS) bool :=
  isDigitalActionActivatedConstant vr m_rightHandRoomDrag.
Definition optionalOverrideLeftHandRoomTurn : HM (RS:=RS) bool :=
  isDigitalActionActivatedConstant vr m_optionalOverrideLeftHandRoomTurn.
Definition optionalOverrideRightHandRoomTurn : HM (RS:=RS) bool :=
  isDigitalActionActivatedConstant vr m_optionalOverrideRightHandRoomTurn.
Definition optionalOverrideLeftHandRoomDrag : HM (RS:=RS) bool :=
  isDigitalActionActivatedConstant vr m_optionalOverrideLeftHandRoomDrag.
Definition optionalOverrideRightHandRoomDrag : HM (RS:=RS) bool :=
  isDigitalActionActivatedConstant vr m_optionalOverrideRightHandRoomDrag.
Definition pushToTalk : HM (RS:=RS) bool :=
  isDigitalActionActivatedConstant vr m_pushToTalk.

Inductive Query :=
| QgetDigitalActionData (action : Ptr)
| QgetAnalogActionData (action : Ptr)
| QisDigitalActionActivatedOnce (action : Ptr)
| QisDigitalActionActivatedConstant (action : Ptr)
| QnextSong | QpreviousSong | QpausePlaySong | QstopSong
| QleftHandRoomTurn | QrightHandRoomTurn | QleftHandRoomDrag | QrightHandRoomDrag
| QoptionalOverrideLeftHandRoomTurn | QoptionalOverrideRightHandRoomTurn
| QoptionalOverrideLeftHandRoomDrag | QoptionalOverrideRightHandRoomDrag
| QpushToTalk
| QUpdateStates.

Definition run_query (q : Query) : HM (RS:=RS) unit :=
  match q with
  | QgetDigitalActionData p => getDigitalActionData vr p ;;~ hret tt
  | QgetAnalogActionData p => getAnalogActionData vr p ;;~ hret tt
  | QisDigitalActionActivatedOnce p => isDigitalActionActivatedOnce vr p ;;~ hret tt
  | QisDigitalActionActivatedConstant p => isDigitalActionActivatedConstant vr p ;;~ hret tt
  | QnextSong => nextSong ;;~ hret tt
  | QpreviousSong => previousSong ;;~ hret tt
  | QpausePlaySong => pausePlaySong ;;~ hret tt
  | QstopSong => stopSong ;;~ hret tt
  | QleftHandRoomTurn => leftHandRoomTurn ;;~ hret tt
  | QrightHandRoomTurn => rightHandRoomTurn ;;~ hret tt
  | QleftHandRoomDrag => leftHandRoomDrag ;;~ hret tt
  | QrightHandRoomDrag => rightHandRoomDrag ;;~ hret tt
  | QoptionalOverrideLeftHandRoomTurn => optionalOverrideLeftHandRoomTurn ;;~ hret tt
  | QoptionalOverrideRightHandRoomTurn => optionalOverrideRightHandRoomTurn ;;~ hret tt
  | QoptionalOverrideLeftHandRoomDrag => optionalOverrideLeftHandRoomDrag ;;~ hret tt
  | QoptionalOverrideRightHandRoomDrag => optionalOverrideRightHandRoomDrag ;;~ hret tt
  | QpushToTalk => pushToTalk ;;~ hret tt
  | QUpdateStates => UpdateStates UpdateActionStateW
  end.

End Code.
End IvrInputRoomMem.

(** ** Concrete runtimes *)

(** A runtime whose state counts its calls: every digital query reports the
    error code [err] and the buffer [d], every analog query reports [err] and
    leaves the buffer as it got it, the frame update reports [err], and the
    n-th name lookup resolves to handle n+1. *)
Definition fixed_rt (err : EVRInputError) (d : InputDigitalActionData_t) : IVRInput nat := {|
  GetDigitalActionData := fun n _ _ _ => (S n, err, d);
  GetAnalogActionData := fun n _ buf _ => (S n, err, buf);
  UpdateActionState := fun n _ _ => (S n, err);
  GetActionHandle := fun n _ => (S n, VRInputError_None, Z.of_nat n + 1);
  GetActionSetHandle := fun n _ => (S n, VRInputError_None, Z.of_nat n + 1)
|}.

Definition env0 : Env nat := mkEnv 0%nat [] [].

Definition pressed_changed : InputDigitalActionData_t := mkDigital true 7 true true 0.
Definition pressed_held : InputDigitalActionData_t := mkDigital true 7 true false 0.

Definition digital_action : Action := mkAction "k_actionNextTrack" Digital 5.
Definition analog_action : Action := mkAction "k_actionNextTrack" Analog 5.

(** Two views of [UpdateActionState] that also report the array the
    runtime leaves behind: one leaves it as it got it, the other sets each
    element's priority to 5. *)
Definition UW_keep : nat -> list VRActiveActionSet_t -> Z ->
                     nat * EVRInputError * list VRActiveActionSet_t :=
  fun n sets _ => (S n, VRInputError_None, sets).

Definition UW_prio5 : nat -> list VRActiveActionSet_t -> Z ->
                      nat * EVRInputError * list VRActiveActionSet_t :=
  fun n sets _ =>
    (S n, VRInputError_None,
     map (fun s => mkActiveActionSet (ulActionSet s) (ulRestrictedToDevice s)
                     (ulSecondaryActionSet s) (unPadding s) 5) sets).

Definition mem0 : IvrInputMem.HEnv nat := IvrInputMem.mkHEnv env0 (fun _ => None).

(** The memory after the constructor of src/src/ivrinput/ivrinput.cpp under
    [fixed_rt], from [mem0], with [m_activeActionSet] previously [prior0]. *)
Definition mem_built : IvrInputMem.HEnv nat :=
  match IvrInputMem.SteamIVRInput_ctor (fixed_rt 0 pressed_held)
          (mkActiveActionSet 9 9 9 9 9) mem0 with
  | Some (_, h') => h'
  | None => mem0
  end.

Example once_pressed_changed :
  fst (IvrInput.isDigitalActionActivatedOnce (fixed_rt 0 pressed_changed) digital_action env0)
  = Ok true.
Proof. reflexivity. Qed.

Example once_pressed_held :
  fst (IvrInput.isDigitalActionActivatedOnce (fixed_rt 0 pressed_held) digital_action env0)
  = Ok false.
Proof. reflexivity. Qed.

Example constant_pressed_held :
  fst (IvrInput.isDigitalActionActivatedConstant (fixed_rt 0 pressed_held) digital_action env0)
  = Ok true.
Proof. reflexivity. Qed.

Example digital_on_analog_throws :
  fst (IvrInput.getDigitalActionData (fixed_rt 0 pressed_held) analog_action env0)
  = Exc "Action was passed to IVRInput getDigitalActionData without being a digital type. See log for details.".
Proof. reflexivity. Qed.

Example ctor_descriptor :
  match fst (IvrInput.SteamIVRInput_ctor (fixed_rt 0 pressed_held) (mkActiveActionSet 9 9 9 9 9) env0) with
  | Ok this => IvrInput.m_activeActionSet this = mkActiveActionSet 1 0 9 9 0
  | Exc _ => False
  end.
Proof. vm_compute. reflexivity. Qed.

(** ** Properties *)

(** The buffer the runtime hands back for a digital query on handle [h]
    when given the zero-initialised buffer. *)
Definition reported_digital {RS} (vr : IVRInput RS) (rs : RS) (h : VRActionHandle_t)
  : InputDigitalActionData_t :=
  let '(_, _, d) := GetDigitalActionData vr rs h zero_digital k_ulInvalidInputValueHandle in d.

(** The log entries [when_error] appends for [error]. *)
Definition error_log (error : EVRInputError) (parts : list LogPart) : list LogEntry :=
  if Z.eqb error VRInputError_None then [] else [LogError parts].

Definition digital_error_parts (a : Action) (error : EVRInputError) : list LogPart :=
  [LStr "Error getting IVRInput Digital Action Data for handle ";
   LStr (action_name a); LStr ". SteamVR Error: "; LInt error].

Definition update_error_parts (error : EVRInputError) : list LogPart :=
  [LStr "Error during IVRInput action state update. OpenVR Error: "; LInt error].

Section Proofs.
Context {RS : Type} (vr : IVRInput RS).

Lemma when_error_eq (error : EVRInputError) (parts : list LogPart) (e : Env RS) :
  when_error error parts e
  = (Ok tt, mkEnv (env_rt e) (env_log e ++ error_log error parts) (env_trace e)).
Proof.
  unfold when_error, error_log, log_error, ret.
  destruct (Z.eqb error VRInputError_None); simpl.
  - destruct e; simpl; rewrite app_nil_r; reflexivity.
  - reflexivity.
Qed.

(** One run of [getDigitalActionData] on a digital action: one runtime call
    on the zeroed buffer, the error logged, the runtime's buffer returned. *)
Lemma getDigitalActionData_digital (a : Action) (e : Env RS) rs' error d :
  action_type a = Digital ->
  GetDigitalActionData vr (env_rt e) (action_handle a) zero_digital
    k_ulInvalidInputValueHandle = (rs', error, d) ->
  IvrInput.getDigitalActionData vr a e
  = (Ok d, mkEnv rs' (env_log e ++ error_log error (digital_error_parts a error))
                 (env_trace e ++ [CallGetDigitalActionData (action_handle a)
                                    k_ulInvalidInputValueHandle])).
Proof.
  intros Hty Hrt.
  unfold IvrInput.getDigitalActionData; rewrite Hty; simpl.
  cbv beta iota delta [bind rt_step record_call rt_digital]; simpl.
  rewrite Hrt.
  rewrite when_error_eq; reflexivity.
Qed.

(** The analogue for [getAnalogActionData]. *)
Lemma getAnalogActionData_analog (a : Action) (e : Env RS) rs' error d :
  action_type a = Analog ->
  GetAnalogActionData vr (env_rt e) (action_handle a) zero_analog
    k_ulInvalidInputValueHandle = (rs', error, d) ->
  IvrInput.getAnalogActionData vr a e
  = (Ok d, mkEnv rs' (env_log e ++ error_log error (digital_error_parts a error))
                 (env_trace e ++ [CallGetAnalogActionData (action_handle a)
                                    k_ulInvalidInputValueHandle])).
Proof.
  intros Hty Hrt.
  unfold IvrInput.getAnalogActionData; rewrite Hty; simpl.
  cbv beta iota delta [bind rt_step record_call rt_analog]; simpl.
  rewrite Hrt.
  rewrite when_error_eq; reflexivity.
Qed.

(** The two translations of the free functions are the same functions. *)
Lemma room_getDigitalActionData_eq (a : Action) (e : Env RS) :
  IvrInputRoom.getDigitalActionData vr a e = IvrInput.getDigitalActionData vr a e.
Proof. reflexivity. Qed.

Lemma once_digital (a : Action) (e : Env RS) :
  action_type a = Digital ->
  fst (IvrInput.isDigitalActionActivatedOnce vr a e)
  = Ok (d_bState (reported_digital vr (env_rt e) (action_handle a))
        && d_bChanged (reported_digital vr (env_rt e) (action_handle a))).
Proof.
  intros Hty; unfold reported_digital.
  destruct (GetDigitalActionData vr (env_rt e) (action_handle a) zero_digital
              k_ulInvalidInputValueHandle) as [[rs' error] d] eqn:Hrt.
  unfold IvrInput.isDigitalActionActivatedOnce, bind.
  rewrite (getDigitalActionData_digital a e rs' error d Hty Hrt); reflexivity.
Qed.

Lemma constant_digital (a : Action) (e : Env RS) :
  action_type a = Digital ->
  fst (IvrInput.isDigitalActionActivatedConstant vr a e)
  = Ok (d_bState (reported_digital vr (env_rt e) (action_handle a))).
Proof.
  intros Hty; unfold reported_digital.
  destruct (GetDigitalActionData vr (env_rt e) (action_handle a) zero_digital
              k_ulInvalidInputValueHandle) as [[rs' error] d] eqn:Hrt.
  unfold IvrInput.isDigitalActionActivatedConstant, bind.
  rewrite (getDigitalActionData_digital a e rs' error d Hty Hrt); reflexivity.
Qed.

Lemma bind_ok {A B} (m : EnvM A) (k : A -> EnvM B) (e e' : Env RS) (a : A) :
  m e = (Ok a, e') -> bind m k e = k a e'.
Proof. intros H; unfold bind; rewrite H; reflexivity. Qed.

(** The modelled constructors never throw and keep the name and type. *)
Lemma make_Action_ok (name : string) (type : ActionType) (e : Env RS) :
  exists act e', make_Action vr name type e = (Ok act, e')
                 /\ action_name act = name /\ action_type act = type.
Proof.
  unfold make_Action.
  cbv beta iota delta [bind rt_step record_call rt_action_handle]; simpl.
  destruct (GetActionHandle vr (env_rt e) name) as [[rs' error] h].
  rewrite when_error_eq; simpl.
  eexists _, _; split; [reflexivity | split; reflexivity].
Qed.

Lemma make_ActionSet_ok (name : string) (e : Env RS) :
  exists set e', make_ActionSet vr name e = (Ok set, e').
Proof.
  unfold make_ActionSet.
  cbv beta iota delta [bind rt_step record_call rt_action_set_handle]; simpl.
  destruct (GetActionSetHandle vr (env_rt e) name) as [[rs' error] h].
  rewrite when_error_eq; simpl.
  eexists _, _; reflexivity.
Qed.

(** Step through a constructor's member initialisers. *)
Ltac run_members :=
  repeat match goal with
  | |- context [bind (make_Action ?v ?n ?t) ?k ?e] =>
      let act := fresh "act" in let e' := fresh "e" in let Hm := fresh "Hm" in
      let Hn := fresh "Hn" in let Ht := fresh "Ht" in
      destruct (make_Action_ok n t e) as (act & e' & Hm & Hn & Ht);
      rewrite (bind_ok _ _ _ _ _ Hm); cbv beta
  | |- context [bind (make_ActionSet ?v ?n) ?k ?e] =>
      let set := fresh "set" in let e' := fresh "e" in let Hm := fresh "Hm" in
      destruct (make_ActionSet_ok n e) as (set & e' & Hm);
      rewrite (bind_ok _ _ _ _ _ Hm); cbv beta
  end.

Lemma ctor_ok (prior : VRActiveActionSet_t) (e : Env RS) :
  exists this e', IvrInput.SteamIVRInput_ctor vr prior e = (Ok this, e')
  /\ ulActionSet (IvrInput.m_activeActionSet this) = set_handle (IvrInput.m_mainSet this)
  /\ ulRestrictedToDevice (IvrInput.m_activeActionSet this) = k_ulInvalidInputValueHandle
  /\ nPriority (IvrInput.m_activeActionSet this) = 0
  /\ Forall (fun a => action_type a = Digital) (IvrInput.actions this).
Proof.
  unfold IvrInput.SteamIVRInput_ctor.
  run_members.
  eexists _, _; split; [reflexivity|].
  simpl; repeat split; repeat constructor; assumption.
Qed.

Lemma room_ctor_ok (prior : VRActiveActionSet_t) (e : Env RS) :
  exists this e', IvrInputRoom.SteamIVRInput_ctor vr prior e = (Ok this, e')
  /\ ulActionSet (IvrInputRoom.m_activeActionSet this) = set_handle (IvrInputRoom.m_mainSet this)
  /\ ulRestrictedToDevice (IvrInputRoom.m_activeActionSet this) = k_ulInvalidInputValueHandle
  /\ nPriority (IvrInputRoom.m_activeActionSet this) = 0
  /\ Forall (fun a => action_type a = Digital) (IvrInputRoom.actions this).
Proof.
  unfold IvrInputRoom.SteamIVRInput_ctor.
  run_members.
  eexists _, _; split; [reflexivity|].
  simpl; repeat split; repeat constructor; assumption.
Qed.

Lemma once_ok (a : Action) (e : Env RS) :
  action_type a = Digital ->
  exists b e', IvrInput.isDigitalActionActivatedOnce vr a e = (Ok b, e').
Proof.
  intros Hty.
  destruct (GetDigitalActionData vr (env_rt e) (action_handle a) zero_digital
              k_ulInvalidInputValueHandle) as [[rs' error] d] eqn:Hrt.
  unfold IvrInput.isDigitalActionActivatedOnce.
  rewrite (bind_ok _ _ _ _ _ (getDigitalActionData_digital a e rs' error d Hty Hrt)).
  eexists _, _; reflexivity.
Qed.

Lemma constant_ok (a : Action) (e : Env RS) :
  action_type a = Digital ->
  exists b e', IvrInput.isDigitalActionActivatedConstant vr a e = (Ok b, e').
Proof.
  intros Hty.
  destruct (GetDigitalActionData vr (env_rt e) (action_handle a) zero_digital
              k_ulInvalidInputValueHandle) as [[rs' error] d] eqn:Hrt.
  unfold IvrInput.isDigitalActionActivatedConstant.
  rewrite (bind_ok _ _ _ _ _ (getDigitalActionData_digital a e rs' error d Hty Hrt)).
  eexists _, _; reflexivity.
Qed.

Lemma call_fst {Self A} (f : Self -> EnvM (RS:=RS) A) (s : St Self RS) :
  fst (call f s) = fst (f (st_self s) (st_env s)).
Proof. unfold call; destruct (f (st_self s) (st_env s)); reflexivity. Qed.

Lemma call_self {Self A} (f : Self -> EnvM (RS:=RS) A) (s : St Self RS) :
  st_self (snd (call f s)) = st_self s.
Proof. unfold call; destruct (f (st_self s) (st_env s)); reflexivity. Qed.

Ltac split_Forall :=
  repeat match goal with
  | H : Forall _ (_ :: _) |- _ => apply Forall_cons_iff in H as [? H]
  end.

(** A public query whose action is digital returns normally. *)
Ltac digital_query_ok :=
  match goal with
  | |- exists e', bind (IvrInput.isDigitalActionActivatedOnce _ ?a) _ ?env = _ =>
      let b := fresh "b" in let e1 := fresh "e" in let Heq := fresh "Heq" in
      destruct (once_ok a env ltac:(assumption)) as (b & e1 & Heq);
      exists e1; exact (bind_ok _ _ _ _ _ Heq)
  | |- exists e', bind (IvrInputRoom.isDigitalActionActivatedOnce _ ?a) _ ?env = _ =>
      let b := fresh "b" in let e1 := fresh "e" in let Heq := fresh "Heq" in
      destruct (once_ok a env ltac:(assumption)) as (b & e1 & Heq);
      exists e1; exact (bind_ok _ _ _ _ _ Heq)
  | |- exists e', bind (IvrInput.isDigitalActionActivatedConstant _ ?a) _ ?env = _ =>
      let b := fresh "b" in let e1 := fresh "e" in let Heq := fresh "Heq" in
      destruct (constant_ok a env ltac:(assumption)) as (b & e1 & Heq);
      exists e1; exact (bind_ok _ _ _ _ _ Heq)
  | |- exists e', bind (IvrInputRoom.isDigitalActionActivatedConstant _ ?a) _ ?env = _ =>
      let b := fresh "b" in let e1 := fresh "e" in let Heq := fresh "Heq" in
      destruct (constant_ok a env ltac:(assumption)) as (b & e1 & Heq);
      exists e1; exact (bind_ok _ _ _ _ _ Heq)
  end.

Lemma public_queries_ok (this : IvrInput.SteamIVRInput) (env : Env RS) (q : IvrInput.Query) :
  Forall (fun a => action_type a = Digital) (IvrInput.actions this) ->
  In q IvrInput.public_queries ->
  exists e', IvrInput.query_body vr q this env = (Ok tt, e').
Proof.
  intros Hd Hin; unfold IvrInput.actions in Hd; split_Forall.
  simpl in Hin; repeat destruct Hin as [<-|Hin]; try contradiction;
    cbn [IvrInput.query_body];
    unfold IvrInput.nextSong, IvrInput.previousSong, IvrInput.pausePlaySong,
      IvrInput.stopSong, IvrInput.leftHandPlayspaceRotate,
      IvrInput.rightHandPlayspaceRotate, IvrInput.leftHandPlayspaceMove,
      IvrInput.rightHandPlayspaceMove, IvrInput.optionalOverrideLeftHandPlayspaceRotate,
      IvrInput.optionalOverrideRightHandPlayspaceRotate,
      IvrInput.optionalOverrideLeftHandPlayspaceMove,
      IvrInput.optionalOverrideRightHandPlayspaceMove;
    digital_query_ok.
Qed.

Lemma room_public_queries_ok (this : IvrInputRoom.SteamIVRInput) (env : Env RS)
  (q : IvrInputRoom.Query) :
  Forall (fun a => action_type a = Digital) (IvrInputRoom.actions this) ->
  In q IvrInputRoom.public_queries ->
  exists e', IvrInputRoom.query_body vr q this env = (Ok tt, e').
Proof.
  intros Hd Hin; unfold IvrInputRoom.actions in Hd; split_Forall.
  simpl in Hin; repeat destruct Hin as [<-|Hin]; try contradiction;
    cbn [IvrInputRoom.query_body];
    unfold IvrInputRoom.nextSong, IvrInputRoom.previousSong, IvrInputRoom.pausePlaySong,
      IvrInputRoom.stopSong, IvrInputRoom.leftHandRoomTurn,
      IvrInputRoom.rightHandRoomTurn, IvrInputRoom.leftHandRoomDrag,
      IvrInputRoom.rightHandRoomDrag, IvrInputRoom.optionalOverrideLeftHandRoomTurn,
      IvrInputRoom.optionalOverrideRightHandRoomTurn,
      IvrInputRoom.optionalOverrideLeftHandRoomDrag,
      IvrInputRoom.optionalOverrideRightHandRoomDrag, IvrInputRoom.pushToTalk;
    digital_query_ok.
Qed.

End Proofs.

(** The outcome of the constant query mapped through [f]. *)
Definition result_map {A B} (f : A -> B) (r : Result A) : Result B :=
  match r with Ok a => Ok (f a) | Exc w => Exc w end.

(** ** Which cells each operation writes *)

Module MemFrame.
Import IvrInputMem.

Lemma Field_eqb_true (f g : Field) : Field_eqb f g = true -> f = g.
Proof.
  destruct f, g; simpl; try discriminate; auto.
  intros H; apply Nat.eqb_eq in H; subst; reflexivity.
Qed.

Lemma Ptr_eqb_true (p q : Ptr) : Ptr_eqb p q = true -> p = q.
Proof.
  destruct p, q; simpl; try discriminate; auto.
  intros H; apply Field_eqb_true in H; subst; reflexivity.
Qed.

Section Frame.
Context {RS : Type}.

(** [m] writes no cell outside [w]. *)
Definition frame {A} (w : Ptr -> bool) (m : HM (RS:=RS) A) : Prop :=
  forall h r h', m h = Some (r, h') -> forall p, w p = false -> h_mem h' p = h_mem h p.

Lemma frame_ret {A} w (a : A) : frame w (hret a).
Proof. intros h r h' E p _; injection E as _ <-; reflexivity. Qed.

Lemma frame_lift {A} w (m : EnvM (RS:=RS) A) : frame w (lift m).
Proof.
  intros h r h' E p _; unfold lift in E.
  destruct (m (h_env h)); injection E as _ <-; reflexivity.
Qed.

Lemma frame_store w q v : w q = true -> frame w (store (RS:=RS) q v).
Proof.
  intros Hq h r h' E p Hp; injection E as _ <-; simpl.
  unfold mem_update; destruct (Ptr_eqb q p) eqn:Hqp; [|reflexivity].
  apply Ptr_eqb_true in Hqp; subst; congruence.
Qed.

Lemma frame_load_action w q : frame w (load_action (RS:=RS) q).
Proof.
  intros h r h' E p _; unfold load_action in E.
  destruct (h_mem h q) as [[]|]; try discriminate; injection E as _ <-; reflexivity.
Qed.

Lemma frame_load_digital w q : frame w (load_digital (RS:=RS) q).
Proof.
  intros h r h' E p _; unfold load_digital in E.
  destruct (h_mem h q) as [[]|]; try discriminate; injection E as _ <-; reflexivity.
Qed.

Lemma frame_load_analog w q : frame w (load_analog (RS:=RS) q).
Proof.
  intros h r h' E p _; unfold load_analog in E.
  destruct (h_mem h q) as [[]|]; try discriminate; injection E as _ <-; reflexivity.
Qed.

Lemma frame_load_active w q : frame w (load_active (RS:=RS) q).
Proof.
  intros h r h' E p _; unfold load_active in E.
  destruct (h_mem h q) as [[]|]; try discriminate; injection E as _ <-; reflexivity.
Qed.

Lemma frame_bind {A B} w (m : HM A) (k : A -> HM B) :
  frame w m -> (forall a, frame w (k a)) -> frame w (hbind m k).
Proof.
  intros Hm Hk h r h' E p Hp; unfold hbind in E.
  destruct (m h) as [[[a|what] h1]|] eqn:E1; try discriminate.
  - rewrite (Hk a h1 r h' E p Hp); exact (Hm h _ h1 E1 p Hp).
  - injection E as _ <-; exact (Hm h _ h1 E1 p Hp).
Qed.

End Frame.

Ltac frame_tac :=
  repeat first
    [ apply frame_bind; [|intro; cbv beta]
    | apply frame_ret
    | apply frame_lift
    | apply frame_load_action
    | apply frame_load_digital
    | apply frame_load_analog
    | apply frame_load_active
    | apply frame_store; assumption
    | match goal with
      | |- frame _ (if ?b then _ else _) => destruct b
      | |- frame _ (match ?x with _ => _ end) => destruct x
      end ].

Section Ops.
Context {RS : Type} (vr : IVRInput RS)
  (UpdateActionStateW : RS -> list VRActiveActionSet_t -> Z ->
                        RS * EVRInputError * list VRActiveActionSet_t).

Lemma getDigitalActionData_frame w action :
  w PDigitalHandleData = true -> frame w (getDigitalActionData vr action).
Proof. intros Hw; unfold getDigitalActionData; frame_tac. Qed.

Lemma getAnalogActionData_frame w action :
  w PAnalogHandleData = true -> frame w (getAnalogActionData vr action).
Proof. intros Hw; unfold getAnalogActionData; frame_tac. Qed.

Lemma once_frame w action :
  w PDigitalHandleData = true -> frame w (isDigitalActionActivatedOnce vr action).
Proof.
  intros Hw; unfold isDigitalActionActivatedOnce.
  apply frame_bind; [apply getDigitalActionData_frame; exact Hw|intro; apply frame_ret].
Qed.

Lemma constant_frame w action :
  w PDigitalHandleData = true -> frame w (isDigitalActionActivatedConstant vr action).
Proof.
  intros Hw; unfold isDigitalActionActivatedConstant.
  apply frame_bind; [apply getDigitalActionData_frame; exact Hw|intro; apply frame_ret].
Qed.

Lemma UpdateStates_frame w :
  w m_activeActionSet = true -> frame w (UpdateStates (RS:=RS) UpdateActionStateW).
Proof.
  intros Hw; unfold UpdateStates, write_back_sets; frame_tac.
Qed.

(** The cells the object's operations may write: the two [handleData]
    locals, and [m_activeActionSet] for [UpdateStates]. *)
Definition locals (p : Ptr) : bool :=
  match p with
  | PDigitalHandleData | PAnalogHandleData => true
  | PField _ => false
  end.

Definition locals_and_descriptor (p : Ptr) : bool :=
  match p with
  | PDigitalHandleData | PAnalogHandleData | PField FActiveActionSet => true
  | PField _ => false
  end.

Lemma run_query_frame q :
  frame (if match q with QUpdateStates => true | _ => false end
         then locals_and_descriptor else locals)
        (run_query vr UpdateActionStateW q).
Proof.
  destruct q; simpl; try (apply UpdateStates_frame; reflexivity);
  (apply frame_bind; [|intro; apply frame_ret]);
  first [ apply getDigitalActionData_frame | apply getAnalogActionData_frame
        | apply once_frame | apply constant_frame ]; reflexivity.
Qed.

Lemma room_run_query_frame q :
  frame (if match q with IvrInputRoomMem.QUpdateStates => true | _ => false end
         then locals_and_descriptor else locals)
        (IvrInputRoomMem.run_query vr UpdateActionStateW q).
Proof.
  destruct q; simpl; try (apply UpdateStates_frame; reflexivity);
  (apply frame_bind; [|intro; apply frame_ret]);
  first [ apply getDigitalActionData_frame | apply getAnalogActionData_frame
        | apply once_frame | apply constant_frame ]; reflexivity.
Qed.

Lemma UpdateStates_run h s :
  h_mem h m_activeActionSet = Some (VActiveSet s) ->
  let '(rs', error, written) := UpdateActionStateW (env_rt (h_env h)) [s] 1 in
  UpdateStates UpdateActionStateW h
  = Some (Ok tt, mkHEnv (mkEnv rs' (env_log (h_env h) ++ error_log error (update_error_parts error))
                               (env_trace (h_env h) ++ [CallUpdateActionState [s] 1]))
                        (match written with
                         | s' :: _ => mem_update (h_mem h) m_activeActionSet (VActiveSet s')
                         | [] => h_mem h
                         end)).
Proof.
  intros Hs; unfold UpdateStates, hbind, load_active; rewrite Hs.
  unfold lift; cbv beta iota zeta delta [rt_step bind record_call]; simpl.
  destruct (UpdateActionStateW (env_rt (h_env h)) [s] 1) as [[rs' error] written].
  destruct written as [|s' rest]; simpl; rewrite when_error_eq; reflexivity.
Qed.

Lemma ctor_mem prior h :
  exists h' ms s,
    IvrInputMem.SteamIVRInput_ctor vr prior h = Some (Ok tt, h')
    /\ h_mem h' m_mainSet = Some (VActionSet ms)
    /\ h_mem h' m_activeActionSet = Some (VActiveSet s)
    /\ ulActionSet s = set_handle ms
    /\ ulRestrictedToDevice s = k_ulInvalidInputValueHandle
    /\ nPriority s = 0.
Proof.
  destruct (ctor_ok vr prior (h_env h)) as (this & e' & Hc & Ha & Hb & Hp & _).
  unfold IvrInputMem.SteamIVRInput_ctor, hbind, lift; rewrite Hc.
  eexists _, _, _; split; [reflexivity|]; simpl.
  repeat split; eassumption.
Qed.

Lemma room_ctor_mem prior h :
  exists h' ms s,
    IvrInputRoomMem.SteamIVRInput_ctor vr prior h = Some (Ok tt, h')
    /\ h_mem h' m_mainSet = Some (VActionSet ms)
    /\ h_mem h' m_activeActionSet = Some (VActiveSet s)
    /\ ulActionSet s = set_handle ms
    /\ ulRestrictedToDevice s = k_ulInvalidInputValueHandle
    /\ nPriority s = 0.
Proof.
  destruct (room_ctor_ok vr prior (h_env h)) as (this & e' & Hc & Ha & Hb & Hp & _).
  unfold IvrInputRoomMem.SteamIVRInput_ctor, hbind, lift; rewrite Hc.
  eexists _, _, _; split; [reflexivity|]; simpl.
  repeat split; eassumption.
Qed.

End Ops.
End MemFrame.

Section Claims.
Context {RS : Type} (vr : IVRInput RS).

(** C1: for a digital action, [isDigitalActionActivatedOnce] and the media
    accessors built on it ([nextSong], [previousSong], [pausePlaySong],
    [stopSong]) return [bState && bChanged] of the data the runtime reports. *)
Theorem activated_once_is_pressed_and_changed (a : Action) (e : Env RS)
  (Hdigital : action_type a = Digital) :
  let d := reported_digital vr (env_rt e) (action_handle a) in
  fst (IvrInput.isDigitalActionActivatedOnce vr a e) = Ok (d_bState d && d_bChanged d)
  /\ (forall this, IvrInput.m_nextTrack this = a -> fst (IvrInput.nextSong vr this e) = Ok (d_bState d && d_bChanged d))
  /\ (forall this, IvrInput.m_previousTrack this = a -> fst (IvrInput.previousSong vr this e) = Ok (d_bState d && d_bChanged d))
  /\ (forall this, IvrInput.m_pausePlayTrack this = a -> fst (IvrInput.pausePlaySong vr this e) = Ok (d_bState d && d_bChanged d))
  /\ (forall this, IvrInput.m_stopTrack this = a -> fst (IvrInput.stopSong vr this e) = Ok (d_bState d && d_bChanged d))
.
Proof.
  intros d.
  repeat split; try (intros this Hm; subst a); apply once_digital; assumption.
Qed.

(** C4: for a digital action, [isDigitalActionActivatedConstant] and every
    hold-style accessor built on it (in both versions, including
    [leftHandRoomDrag] and [pushToTalk]) return [bState] of the data the
    runtime reports; [bChanged] does not enter the result. *)
Theorem activated_constant_is_pressed (a : Action) (e : Env RS)
  (Hdigital : action_type a = Digital) :
  let d := reported_digital vr (env_rt e) (action_handle a) in
  fst (IvrInput.isDigitalActionActivatedConstant vr a e) = Ok (d_bState d)
  /\ fst (IvrInputRoom.isDigitalActionActivatedConstant vr a e) = Ok (d_bState d)
  /\ (forall this, IvrInput.m_leftHandPlayspaceRotate this = a -> fst (IvrInput.leftHandPlayspaceRotate vr this e) = Ok (d_bState d))
  /\ (forall this, IvrInput.m_rightHandPlayspaceRotate this = a -> fst (IvrInput.rightHandPlayspaceRotate vr this e) = Ok (d_bState d))
  /\ (forall this, IvrInput.m_leftHandPlayspaceMove this = a -> fst (IvrInput.leftHandPlayspaceMove vr this e) = Ok (d_bState d))
  /\ (forall this, IvrInput.m_rightHandPlayspaceMove this = a -> fst (IvrInput.rightHandPlayspaceMove vr this e) = Ok (d_bState d))
  /\ (forall this, IvrInput.m_optionalOverrideLeftHandPlayspaceRotate this = a -> fst (IvrInput.optionalOverrideLeftHandPlayspaceRotate vr this e) = Ok (d_bState d))
  /\ (forall this, IvrInput.m_optionalOverrideRightHandPlayspaceRotate this = a -> fst (IvrInput.optionalOverrideRightHandPlayspaceRotate vr this e) = Ok (d_bState d))
  /\ (forall this, IvrInput.m_optionalOverrideLeftHandPlayspaceMove this = a -> fst (IvrInput.optionalOverrideLeftHandPlayspaceMove vr this e) = Ok (d_bState d))
  /\ (forall this, IvrInput.m_optionalOverrideRightHandPlayspaceMove this = a -> fst (IvrInput.optionalOverrideRightHandPlayspaceMove vr this e) = Ok (d_bState d))
  /\ (forall this, IvrInputRoom.m_leftHandRoomTurn this = a -> fst (IvrInputRoom.leftHandRoomTurn vr this e) = Ok (d_bState d))
  /\ (forall this, IvrInputRoom.m_rightHandRoomTurn this = a -> fst (IvrInputRoom.rightHandRoomTurn vr this e) = Ok (d_bState d))
  /\ (forall this, IvrInputRoom.m_leftHandRoomDrag this = a -> fst (IvrInputRoom.leftHandRoomDrag vr this e) = Ok (d_bState d))
  /\ (forall this, IvrInputRoom.m_rightHandRoomDrag this = a -> fst (IvrInputRoom.rightHandRoomDrag vr this e) = Ok (d_bState d))
  /\ (forall this, IvrInputRoom.m_optionalOverrideLeftHandRoomTurn this = a -> fst (IvrInputRoom.optionalOverrideLeftHandRoomTurn vr this e) = Ok (d_bState d))
  /\ (forall this, IvrInputRoom.m_optionalOverrideRightHandRoomTurn this = a -> fst (IvrInputRoom.optionalOverrideRightHandRoomTurn vr this e) = Ok (d_bState d))
  /\ (forall this, IvrInputRoom.m_optionalOverrideLeftHandRoomDrag this = a -> fst (IvrInputRoom.optionalOverrideLeftHandRoomDrag vr this e) = Ok (d_bState d))
  /\ (forall this, IvrInputRoom.m_optionalOverrideRightHandRoomDrag this = a -> fst (IvrInputRoom.optionalOverrideRightHandRoomDrag vr this e) = Ok (d_bState d))
  /\ (forall this, IvrInputRoom.m_pushToTalk this = a -> fst (IvrInputRoom.pushToTalk vr this e) = Ok (d_bState d))
.
Proof.
  intros d.
  repeat split; try (intros this Hm; subst a); apply constant_digital; assumption.
Qed.

(** C2: an action of the wrong type passed to [getDigitalActionData] (an
    analog one) or to [getAnalogActionData] (a digital one) is logged and
    a [std::runtime_error] is thrown; the runtime is not called and no data
    is returned.  Both versions. *)
Theorem type_mismatch_logs_and_throws (a : Action) (e : Env RS) :
  match action_type a with
  | Analog =>
      IvrInput.getDigitalActionData vr a e
      = (Exc ("Action was passed to IVRInput getDigitalActionData without being " ++ "a digital type. See log for details."),
         mkEnv (env_rt e)
           (env_log e ++ [LogError [LStr ("Action was passed to IVRInput getDigitalActionData without "
                                          ++ "being a digital type. Action: ");
                                    LStr (action_name a)]])
           (env_trace e))
      /\ IvrInputRoom.getDigitalActionData vr a e = IvrInput.getDigitalActionData vr a e
  | Digital =>
      IvrInput.getAnalogActionData vr a e
      = (Exc ("Action was passed to IVRInput getAnalogActionData without being " ++ "an analog type. See log for details."),
         mkEnv (env_rt e)
           (env_log e ++ [LogError [LStr ("Action was passed to IVRInput getAnalogActionData without "
                                          ++ "being an analog type. Action: ");
                                    LStr (action_name a)]])
           (env_trace e))
      /\ IvrInputRoom.getAnalogActionData vr a e = IvrInput.getAnalogActionData vr a e
  end.
Proof.
  destruct a as [name [|] h]; split; reflexivity.
Qed.

(** C8: if [isDigitalActionActivatedOnce] returns true then
    [isDigitalActionActivatedConstant] returns true in the same state; the
    once-result is the constant-result conjoined with [bChanged]. *)
Theorem activated_once_implies_constant (a : Action) (e : Env RS)
  (Honce : fst (IvrInput.isDigitalActionActivatedOnce vr a e) = Ok true) :
  fst (IvrInput.isDigitalActionActivatedConstant vr a e) = Ok true
  /\ fst (IvrInput.isDigitalActionActivatedOnce vr a e)
     = result_map (fun b => b && d_bChanged (reported_digital vr (env_rt e) (action_handle a)))
                  (fst (IvrInput.isDigitalActionActivatedConstant vr a e)).
Proof.
  destruct (action_type a) eqn:Hty.
  - rewrite (once_digital vr a e Hty) in Honce |- *.
    rewrite (constant_digital vr a e Hty).
    injection Honce as Hb; apply andb_prop in Hb as [Hs _].
    rewrite Hs; split; reflexivity.
  - destruct a as [name ty h]; simpl in Hty; subst ty; discriminate Honce.
Qed.

(** C10: the two versions compute the same free functions. *)
Theorem versions_compute_same_functions (a : Action) (e : Env RS) :
  IvrInput.getDigitalActionData vr a e = IvrInputRoom.getDigitalActionData vr a e
  /\ IvrInput.getAnalogActionData vr a e = IvrInputRoom.getAnalogActionData vr a e
  /\ IvrInput.isDigitalActionActivatedOnce vr a e = IvrInputRoom.isDigitalActionActivatedOnce vr a e
  /\ IvrInput.isDigitalActionActivatedConstant vr a e
     = IvrInputRoom.isDigitalActionActivatedConstant vr a e.
Proof. repeat split. Qed.

(** C3 (as amended): when the runtime reports an error code other than
    success, [getDigitalActionData] (for a digital action) and
    [getAnalogActionData] (for an analog action) make the runtime call once,
    append one error entry to the log and return normally with the buffer as
    the runtime left it.  The buffer handed to the runtime is the
    zero-initialised one, so the result is zeroed exactly when the runtime
    leaves the buffer untouched. *)
Theorem runtime_error_logged_buffer_returned :
  (forall (a : Action) (e : Env RS) rs' error d,
     action_type a = Digital ->
     GetDigitalActionData vr (env_rt e) (action_handle a) zero_digital
       k_ulInvalidInputValueHandle = (rs', error, d) ->
     error <> VRInputError_None ->
     IvrInput.getDigitalActionData vr a e
     = (Ok d, mkEnv rs' (env_log e ++ [LogError (digital_error_parts a error)])
                    (env_trace e ++ [CallGetDigitalActionData (action_handle a)
                                       k_ulInvalidInputValueHandle]))
     /\ (d = zero_digital -> fst (IvrInput.getDigitalActionData vr a e) = Ok zero_digital))
  /\ (forall (b : Action) (e : Env RS) rs' error d,
     action_type b = Analog ->
     GetAnalogActionData vr (env_rt e) (action_handle b) zero_analog
       k_ulInvalidInputValueHandle = (rs', error, d) ->
     error <> VRInputError_None ->
     IvrInput.getAnalogActionData vr b e
     = (Ok d, mkEnv rs' (env_log e ++ [LogError (digital_error_parts b error)])
                    (env_trace e ++ [CallGetAnalogActionData (action_handle b)
                                       k_ulInvalidInputValueHandle]))
     /\ (d = zero_analog -> fst (IvrInput.getAnalogActionData vr b e) = Ok zero_analog)).
Proof.
  split.
  - intros a e rs' error d Hdigital Hrt Herr.
    rewrite (getDigitalActionData_digital vr a e rs' error d Hdigital Hrt).
    unfold error_log.
    apply Z.eqb_neq in Herr; unfold VRInputError_None in *; rewrite Herr.
    split; [reflexivity | intros ->; reflexivity].
  - intros b e rs' error d Hanalog Hrt Herr.
    rewrite (getAnalogActionData_analog vr b e rs' error d Hanalog Hrt).
    unfold error_log.
    apply Z.eqb_neq in Herr; unfold VRInputError_None in *; rewrite Herr.
    split; [reflexivity | intros ->; reflexivity].
Qed.

(** C5: [UpdateStates] (both versions) makes exactly one runtime call,
    [UpdateActionState] on the one-element array [[m_activeActionSet]] with
    count 1, logs a failing error code and returns normally. *)
Theorem UpdateStates_single_call_logged (this1 : IvrInput.SteamIVRInput)
  (this2 : IvrInputRoom.SteamIVRInput) (e : Env RS) :
  IvrInput.UpdateStates vr this1 e
  = (let '(rs', error) :=
       UpdateActionState vr (env_rt e) [IvrInput.m_activeActionSet this1] 1 in
     (Ok tt, mkEnv rs' (env_log e ++ error_log error (update_error_parts error))
                  (env_trace e ++ [CallUpdateActionState [IvrInput.m_activeActionSet this1] 1])))
  /\ IvrInputRoom.UpdateStates vr this2 e
  = (let '(rs', error) :=
       UpdateActionState vr (env_rt e) [IvrInputRoom.m_activeActionSet this2] 1 in
     (Ok tt, mkEnv rs' (env_log e ++ error_log error (update_error_parts error))
                  (env_trace e ++ [CallUpdateActionState [IvrInputRoom.m_activeActionSet this2] 1]))).
Proof.
  split.
  - unfold IvrInput.UpdateStates.
    cbv beta iota zeta delta [bind rt_step record_call]; simpl.
    destruct (UpdateActionState vr (env_rt e) [IvrInput.m_activeActionSet this1] 1)
      as [rs' error].
    rewrite when_error_eq; reflexivity.
  - unfold IvrInputRoom.UpdateStates.
    cbv beta iota zeta delta [bind rt_step record_call]; simpl.
    destruct (UpdateActionState vr (env_rt e) [IvrInputRoom.m_activeActionSet this2] 1)
      as [rs' error].
    rewrite when_error_eq; reflexivity.
Qed.

(** C9: on an object built by either version's constructor, whatever the
    environment, no public query method throws: every one returns
    normally. *)
Theorem public_queries_never_throw (prior : VRActiveActionSet_t) (e : Env RS)
  (s1 : St IvrInput.SteamIVRInput RS) (s2 : St IvrInputRoom.SteamIVRInput RS)
  (H1 : fst (IvrInput.SteamIVRInput_ctor vr prior e) = Ok (st_self s1))
  (H2 : fst (IvrInputRoom.SteamIVRInput_ctor vr prior e) = Ok (st_self s2)) :
  (forall q, In q IvrInput.public_queries -> fst (IvrInput.run_query vr q s1) = Ok tt)
  /\ (forall q, In q IvrInputRoom.public_queries -> fst (IvrInputRoom.run_query vr q s2) = Ok tt).
Proof.
  destruct (ctor_ok vr prior e) as (t1 & e1 & Hc1 & _ & _ & _ & Hd1).
  destruct (room_ctor_ok vr prior e) as (t2 & e2 & Hc2 & _ & _ & _ & Hd2).
  rewrite Hc1 in H1; rewrite Hc2 in H2; simpl in H1, H2.
  injection H1 as H1; injection H2 as H2; subst t1 t2.
  split; intros q Hin.
  - unfold IvrInput.run_query; rewrite call_fst.
    destruct (public_queries_ok vr (st_self s1) (st_env s1) q Hd1 Hin) as (e' & ->).
    reflexivity.
  - unfold IvrInputRoom.run_query; rewrite call_fst.
    destruct (room_public_queries_ok vr (st_self s2) (st_env s2) q Hd2 Hin) as (e' & ->).
    reflexivity.
Qed.

End Claims.

(** ** The descriptor and the actions in memory *)

Section MemClaims.
Import IvrInputMem MemFrame.
Context {RS : Type} (vr : IVRInput RS).

(** C6 (amended): after either version's constructor, [m_activeActionSet]
    holds the main set's handle, [k_ulInvalidInputValueHandle] and
    priority 0.  No operation other than [UpdateStates] writes it.
    [UpdateStates] passes the descriptor's current contents as the
    one-element array, and afterwards the descriptor holds what the runtime
    left in that array; so it is unchanged when the runtime leaves the
    array as it got it. *)
Theorem active_action_set_descriptor_in_memory
  (UW : RS -> list VRActiveActionSet_t -> Z -> RS * EVRInputError * list VRActiveActionSet_t) :
  (forall prior h, exists h' ms s,
      IvrInputMem.SteamIVRInput_ctor vr prior h = Some (Ok tt, h')
      /\ h_mem h' m_mainSet = Some (VActionSet ms)
      /\ h_mem h' m_activeActionSet = Some (VActiveSet s)
      /\ ulActionSet s = set_handle ms
      /\ ulRestrictedToDevice s = k_ulInvalidInputValueHandle
      /\ nPriority s = 0)
  /\ (forall prior h, exists h' ms s,
      IvrInputRoomMem.SteamIVRInput_ctor vr prior h = Some (Ok tt, h')
      /\ h_mem h' m_mainSet = Some (VActionSet ms)
      /\ h_mem h' m_activeActionSet = Some (VActiveSet s)
      /\ ulActionSet s = set_handle ms
      /\ ulRestrictedToDevice s = k_ulInvalidInputValueHandle
      /\ nPriority s = 0)
  /\ (forall q h, q <> QUpdateStates ->
        match IvrInputMem.run_query vr UW q h with
        | Some (_, h') => h_mem h' m_activeActionSet = h_mem h m_activeActionSet
        | None => True
        end)
  /\ (forall q h, q <> IvrInputRoomMem.QUpdateStates ->
        match IvrInputRoomMem.run_query vr UW q h with
        | Some (_, h') => h_mem h' m_activeActionSet = h_mem h m_activeActionSet
        | None => True
        end)
  /\ (forall h s, h_mem h m_activeActionSet = Some (VActiveSet s) ->
        let '(rs', error, written) := UW (env_rt (h_env h)) [s] 1 in
        exists h',
          IvrInputMem.run_query vr UW QUpdateStates h = Some (Ok tt, h')
          /\ IvrInputRoomMem.run_query vr UW IvrInputRoomMem.QUpdateStates h = Some (Ok tt, h')
          /\ env_rt (h_env h') = rs'
          /\ env_trace (h_env h') = (env_trace (h_env h) ++ [CallUpdateActionState [s] 1])%list
          /\ h_mem h' m_activeActionSet = Some (VActiveSet (hd s written))
          /\ (written = [] \/ written = [s] -> h_mem h' m_activeActionSet = h_mem h m_activeActionSet)).
Proof.
  split; [exact (ctor_mem vr)|].
  split; [exact (room_ctor_mem vr)|].
  split; [|split; [|]].
  - intros q h Hq.
    destruct (IvrInputMem.run_query vr UW q h) as [[r h']|] eqn:E; [|exact I].
    apply (run_query_frame vr UW q h r h' E).
    destruct q; try reflexivity; contradiction.
  - intros q h Hq.
    destruct (IvrInputRoomMem.run_query vr UW q h) as [[r h']|] eqn:E; [|exact I].
    apply (room_run_query_frame vr UW q h r h' E).
    destruct q; try reflexivity; contradiction.
  - intros h s Hs.
    pose proof (UpdateStates_run UW h s Hs) as Hrun.
    destruct (UW (env_rt (h_env h)) [s] 1) as [[rs' error] written].
    eexists; split; [exact Hrun|]; split; [exact Hrun|]; simpl.
    split; [reflexivity|]; split; [reflexivity|].
    destruct written as [|s' rest]; simpl.
    + split; [exact Hs|]; intros _; reflexivity.
    + split; [reflexivity|].
      intros [Hw|Hw]; [discriminate|]; injection Hw as -> ->.
      rewrite Hs; reflexivity.
Qed.

(** C7: whatever memory it runs on, no operation of either version (the
    four free functions on any [Action&], every public query and
    [UpdateStates]) writes any action member of the object or its main
    set: the cells holding their name, type and handle keep their contents.
    The runtime is handed only the [handleData] locals and
    [m_activeActionSet]. *)
Theorem queries_preserve_action_cells
  (UW : RS -> list VRActiveActionSet_t -> Z -> RS * EVRInputError * list VRActiveActionSet_t)
  (q1 : IvrInputMem.Query) (q2 : IvrInputRoomMem.Query) (h : HEnv RS) :
  match IvrInputMem.run_query vr UW q1 h with
  | Some (_, h') =>
      (forall i, h_mem h' (PField (FAction i)) = h_mem h (PField (FAction i)))
      /\ h_mem h' m_mainSet = h_mem h m_mainSet
  | None => True
  end
  /\ match IvrInputRoomMem.run_query vr UW q2 h with
  | Some (_, h') =>
      (forall i, h_mem h' (PField (FAction i)) = h_mem h (PField (FAction i)))
      /\ h_mem h' m_mainSet = h_mem h m_mainSet
  | None => True
  end.
Proof.
  split.
  - destruct (IvrInputMem.run_query vr UW q1 h) as [[r h']|] eqn:E; [|exact I].
    pose proof (run_query_frame vr UW q1 h r h' E) as Hf.
    split; [intros i|]; apply Hf; destruct q1; reflexivity.
  - destruct (IvrInputRoomMem.run_query vr UW q2 h) as [[r h']|] eqn:E; [|exact I].
    pose proof (room_run_query_frame vr UW q2 h r h' E) as Hf.
    split; [intros i|]; apply Hf; destruct q2; reflexivity.
Qed.

End MemClaims.

(** ** Witnesses and counterexamples *)

Definition prior0 : VRActiveActionSet_t := mkActiveActionSet 9 9 9 9 9.

(** The objects the two constructors build under [fixed_rt] from [env0]. *)
Definition built_playspace : IvrInput.SteamIVRInput :=
  IvrInput.mkSteamIVRInput (mkActionSet input_strings.k_setMain 1)
    (mkAction input_strings.k_actionNextTrack Digital 2)
    (mkAction input_strings.k_actionPreviousTrack Digital 3)
    (mkAction input_strings.k_actionPausePlayTrack Digital 4)
    (mkAction input_strings.k_actionStopTrack Digital 5)
    (mkAction input_strings.k_actionLeftHandPlayspaceRotate Digital 6)
    (mkAction input_strings.k_actionRightHandPlayspaceRotate Digital 7)
    (mkAction input_strings.k_actionLeftHandPlayspaceMove Digital 8)
    (mkAction input_strings.k_actionRightHandPlayspaceMove Digital 9)
    (mkAction input_strings.k_actionOptionalOverrideLeftHandPlayspaceRotate Digital 10)
    (mkAction input_strings.k_actionOptionalOverrideRightHandPlayspaceRotate Digital 11)
    (mkAction input_strings.k_actionOptionalOverrideLeftHandPlayspaceMove Digital 12)
    (mkAction input_strings.k_actionOptionalOverrideRightHandPlayspaceMove Digital 13)
    (mkActiveActionSet 1 0 9 9 0).

Definition built_room : IvrInputRoom.SteamIVRInput :=
  IvrInputRoom.mkSteamIVRInput (mkActionSet input_strings.k_setMain 1)
    (mkAction input_strings.k_actionNextTrack Digital 2)
    (mkAction input_strings.k_actionPreviousTrack Digital 3)
    (mkAction input_strings.k_actionPausePlayTrack Digital 4)
    (mkAction input_strings.k_actionStopTrack Digital 5)
    (mkAction input_strings.k_actionLeftHandRoomTurn Digital 6)
    (mkAction input_strings.k_actionRightHandRoomTurn Digital 7)
    (mkAction input_strings.k_actionLeftHandRoomDrag Digital 8)
    (mkAction input_strings.k_actionRightHandRoomDrag Digital 9)
    (mkAction input_strings.k_actionOptionalOverrideLeftHandRoomTurn Digital 10)
    (mkAction input_strings.k_actionOptionalOverrideRightHandRoomTurn Digital 11)
    (mkAction input_strings.k_actionOptionalOverrideLeftHandRoomDrag Digital 12)
    (mkAction input_strings.k_actionOptionalOverrideRightHandRoomDrag Digital 13)
    (mkAction input_strings.k_actionPushToTalk Digital 14)
    (mkActiveActionSet 1 0 9 9 0).

Lemma activated_once_is_pressed_and_changed_witness :
  action_type digital_action = Digital
  /\ fst (IvrInput.isDigitalActionActivatedOnce (fixed_rt 0 pressed_changed) digital_action env0)
     = Ok true.
Proof.
  split; [reflexivity|].
  destruct (activated_once_is_pressed_and_changed (fixed_rt 0 pressed_changed)
              digital_action env0 eq_refl) as [H _].
  exact H.
Defined.

Lemma activated_constant_is_pressed_witness :
  action_type digital_action = Digital
  /\ fst (IvrInputRoom.isDigitalActionActivatedConstant (fixed_rt 0 pressed_held)
            digital_action env0) = Ok true.
Proof.
  split; [reflexivity|].
  destruct (activated_constant_is_pressed (fixed_rt 0 pressed_held)
              digital_action env0 eq_refl) as [_ [H _]].
  exact H.
Defined.

Lemma activated_once_implies_constant_witness :
  fst (IvrInput.isDigitalActionActivatedOnce (fixed_rt 0 pressed_changed) digital_action env0)
  = Ok true
  /\ fst (IvrInput.isDigitalActionActivatedConstant (fixed_rt 0 pressed_changed)
            digital_action env0) = Ok true.
Proof.
  split; [reflexivity|].
  destruct (activated_once_implies_constant (fixed_rt 0 pressed_changed)
              digital_action env0 eq_refl) as [H _].
  exact H.
Defined.

(** C3 as stated fails: under a runtime that reports an error and writes
    into the buffer, [getDigitalActionData] returns that buffer, not the
    zeroed struct. *)
Lemma runtime_error_result_not_zeroed :
  (let '(_, error, _) := GetDigitalActionData (fixed_rt 3 pressed_held) 0%nat
                           (action_handle digital_action) zero_digital
                           k_ulInvalidInputValueHandle in error) <> VRInputError_None
  /\ fst (IvrInput.getDigitalActionData (fixed_rt 3 pressed_held) digital_action env0)
     = Ok pressed_held
  /\ pressed_held <> zero_digital.
Proof.
  split; [discriminate|].
  split; [reflexivity | discriminate].
Qed.

Lemma runtime_error_logged_buffer_returned_witness :
  fst (IvrInput.getDigitalActionData (fixed_rt 3 pressed_held) digital_action env0)
  = Ok pressed_held
  /\ fst (IvrInput.getAnalogActionData (fixed_rt 3 pressed_held) analog_action env0)
     = Ok zero_analog.
Proof.
  destruct (runtime_error_logged_buffer_returned (fixed_rt 3 pressed_held)) as [Hd Ha].
  destruct (Hd digital_action env0 1%nat 3 pressed_held eq_refl eq_refl
              ltac:(discriminate)) as [Hd' _].
  destruct (Ha analog_action env0 1%nat 3 zero_analog eq_refl eq_refl
              ltac:(discriminate)) as [Ha' _].
  rewrite Hd', Ha'; split; reflexivity.
Defined.

Lemma public_queries_never_throw_witness :
  fst (IvrInput.SteamIVRInput_ctor (fixed_rt 0 pressed_held) prior0 env0) = Ok built_playspace
  /\ fst (IvrInputRoom.SteamIVRInput_ctor (fixed_rt 0 pressed_held) prior0 env0) = Ok built_room
  /\ fst (IvrInputRoom.run_query (fixed_rt 0 pressed_held) IvrInputRoom.QpushToTalk
            (mkSt built_room env0)) = Ok tt.
Proof.
  split; [vm_compute; reflexivity|].
  split; [vm_compute; reflexivity|].
  destruct (public_queries_never_throw (fixed_rt 0 pressed_held) prior0 env0
              (mkSt built_playspace env0) (mkSt built_room env0)
              ltac:(vm_compute; reflexivity) ltac:(vm_compute; reflexivity)) as [_ H].
  apply H; simpl; tauto.
Defined.

Example member_query_runs_in_memory :
  match IvrInputMem.run_query (fixed_rt 0 pressed_held) UW_keep IvrInputMem.QnextSong mem_built with
  | Some (Ok tt, h') =>
      IvrInputMem.h_mem h' IvrInputMem.PDigitalHandleData
      = Some (IvrInputMem.VDigital pressed_held)
  | _ => False
  end.
Proof. vm_compute. reflexivity. Qed.

Lemma active_action_set_descriptor_in_memory_witness :
  IvrInputMem.h_mem mem_built IvrInputMem.m_activeActionSet
  = Some (IvrInputMem.VActiveSet (mkActiveActionSet 1 0 9 9 0))
  /\ match IvrInputMem.run_query (fixed_rt 0 pressed_held) UW_keep IvrInputMem.QnextSong mem_built with
     | Some (_, h') => IvrInputMem.h_mem h' IvrInputMem.m_activeActionSet
                       = IvrInputMem.h_mem mem_built IvrInputMem.m_activeActionSet
     | None => True
     end
  /\ exists h', IvrInputMem.run_query (fixed_rt 0 pressed_held) UW_keep IvrInputMem.QUpdateStates mem_built
                = Some (Ok tt, h')
     /\ IvrInputMem.h_mem h' IvrInputMem.m_activeActionSet
        = IvrInputMem.h_mem mem_built IvrInputMem.m_activeActionSet.
Proof.
  assert (Hs : IvrInputMem.h_mem mem_built IvrInputMem.m_activeActionSet
               = Some (IvrInputMem.VActiveSet (mkActiveActionSet 1 0 9 9 0)))
    by (vm_compute; reflexivity).
  destruct (active_action_set_descriptor_in_memory (fixed_rt 0 pressed_held) UW_keep)
    as (_ & _ & H3 & _ & H5).
  split; [exact Hs|]; split.
  - apply H3; discriminate.
  - specialize (H5 mem_built _ Hs); unfold UW_keep in H5.
    destruct H5 as (h' & Hq & _ & _ & _ & _ & Hkeep).
    exists h'; split; [exact Hq|]; apply Hkeep; right; reflexivity.
Defined.

(** C6 as stated fails: [UpdateStates] hands the runtime a non-const
    pointer to the descriptor, and under a runtime that writes priority 5
    into the array it receives, the descriptor built with priority 0 holds
    priority 5 after one [UpdateStates]. *)
Lemma UpdateStates_runtime_rewrites_descriptor :
  IvrInputMem.h_mem mem_built IvrInputMem.m_activeActionSet
  = Some (IvrInputMem.VActiveSet (mkActiveActionSet 1 0 9 9 0))
  /\ match IvrInputMem.run_query (fixed_rt 0 pressed_held) UW_prio5 IvrInputMem.QUpdateStates mem_built with
     | Some (Ok _, h') => IvrInputMem.h_mem h' IvrInputMem.m_activeActionSet
                          = Some (IvrInputMem.VActiveSet (mkActiveActionSet 1 0 9 9 5))
     | _ => False
     end.
Proof. split; vm_compute; reflexivity. Qed.

(** ** Further properties of the wrapper *)

(** What one run of an operation can do to the environment: it appends at
    most one runtime call and at most one log entry, removes nothing, and
    when it throws it has not called the runtime and left its state as it
    was. *)
Definition small_footprint {RS A} (m : EnvM (RS:=RS) A) : Prop :=
  forall e, let (r, e') := m e in
  exists calls logs,
    env_trace e' = (env_trace e ++ calls)%list
    /\ env_log e' = (env_log e ++ logs)%list
    /\ (length calls <= 1)%nat /\ (length logs <= 1)%nat
    /\ (forall w, r = Exc w -> calls = [] /\ env_rt e' = env_rt e).

Section Footprint.
Context {RS : Type} (vr : IVRInput RS).

Lemma error_log_length (error : EVRInputError) (parts : list LogPart) :
  (length (error_log error parts) <= 1)%nat.
Proof. unfold error_log; destruct (Z.eqb error VRInputError_None); simpl; lia. Qed.

Lemma small_footprint_then {A B} (m : EnvM (RS:=RS) A) (f : A -> B) :
  small_footprint m -> small_footprint (x <- m ;; ret (f x)).
Proof.
  intros Hm e; specialize (Hm e); unfold bind, ret.
  destruct (m e) as [[a|w] e'];
    destruct Hm as (calls & logs & H1 & H2 & H3 & H4 & H5);
    exists calls, logs; (split; [exact H1|]); (split; [exact H2|]);
    (split; [exact H3|]); (split; [exact H4|]); intros w' Hw;
    [ discriminate | injection Hw as <-; apply (H5 w eq_refl) ].
Qed.

Lemma getDigitalActionData_footprint (a : Action) :
  small_footprint (IvrInput.getDigitalActionData vr a).
Proof.
  intros e.
  destruct (action_type a) eqn:Hty.
  - destruct (GetDigitalActionData vr (env_rt e) (action_handle a) zero_digital
                k_ulInvalidInputValueHandle) as [[rs' error] d] eqn:Hrt.
    rewrite (getDigitalActionData_digital vr a e rs' error d Hty Hrt).
    exists [CallGetDigitalActionData (action_handle a) k_ulInvalidInputValueHandle],
      (error_log error (digital_error_parts a error)).
    repeat split; simpl; auto using error_log_length; discriminate.
  - destruct a as [name ty h]; simpl in Hty; subst ty.
    exists [], [LogError [LStr ("Action was passed to IVRInput getDigitalActionData without "
                                ++ "being a digital type. Action: "); LStr name]].
    cbn; rewrite app_nil_r; repeat split; auto.
Qed.

Lemma getAnalogActionData_footprint (a : Action) :
  small_footprint (IvrInput.getAnalogActionData vr a).
Proof.
  intros e.
  destruct (action_type a) eqn:Hty.
  - destruct a as [name ty h]; simpl in Hty; subst ty.
    exists [], [LogError [LStr ("Action was passed to IVRInput getAnalogActionData without "
                                ++ "being an analog type. Action: "); LStr name]].
    cbn; rewrite app_nil_r; repeat split; auto.
  - destruct (GetAnalogActionData vr (env_rt e) (action_handle a) zero_analog
                k_ulInvalidInputValueHandle) as [[rs' error] d] eqn:Hrt.
    rewrite (getAnalogActionData_analog vr a e rs' error d Hty Hrt).
    exists [CallGetAnalogActionData (action_handle a) k_ulInvalidInputValueHandle],
      (error_log error (digital_error_parts a error)).
    repeat split; simpl; auto using error_log_length; discriminate.
Qed.

Lemma UpdateStates_footprint_gen (sets : list VRActiveActionSet_t) :
  small_footprint
    (error <- rt_step (CallUpdateActionState sets 1)
                      (fun rs => UpdateActionState vr rs sets 1) ;;
     when_error error (update_error_parts error)).
Proof.
  intros e.
  cbv beta iota zeta delta [bind rt_step record_call]; simpl.
  destruct (UpdateActionState vr (env_rt e) sets 1) as [rs' error].
  rewrite when_error_eq.
  exists [CallUpdateActionState sets 1], (error_log error (update_error_parts error)).
  repeat split; simpl; auto using error_log_length; discriminate.
Qed.

End Footprint.

Section Extras.
Context {RS : Type} (vr : IVRInput RS).

(** X4: every operation of either version (the free functions on any action,
    every public query, [UpdateStates]) makes at most one runtime call and
    adds at most one log entry, never removes from the log or the call
    record, and when it throws it has not called the runtime. *)
Theorem operations_small_footprint (q1 : IvrInput.Query) (this1 : IvrInput.SteamIVRInput)
  (q2 : IvrInputRoom.Query) (this2 : IvrInputRoom.SteamIVRInput) :
  small_footprint (IvrInput.query_body vr q1 this1)
  /\ small_footprint (IvrInputRoom.query_body vr q2 this2).
Proof.
  split.
  - destruct q1; cbn [IvrInput.query_body];
      try apply (UpdateStates_footprint_gen vr);
      apply small_footprint_then;
      first [ apply getDigitalActionData_footprint
            | apply getAnalogActionData_footprint
            | apply small_footprint_then; apply getDigitalActionData_footprint ].
  - destruct q2; cbn [IvrInputRoom.query_body];
      try apply (UpdateStates_footprint_gen vr);
      apply small_footprint_then;
      first [ apply getDigitalActionData_footprint
            | apply getAnalogActionData_footprint
            | apply small_footprint_then; apply getDigitalActionData_footprint ].
Qed.

End Extras.

